(** * Financial tracker: credential store, budget store and budget notifications

    A shallow embedding of [app.py]: the three SQLite tables as lists of rows,
    the functions of the module as functions over that store, Python
    exceptions as an error monad, [REAL] amounts as IEEE 754 binary64 floats
    (the kernel's primitive floats) and Python strings as UTF-8 byte strings. *)

From Stdlib Require Import ZArith NArith List String Ascii Bool Lia.
From Stdlib Require Import Floats DecimalString.
From stdpp Require Import base option list strings gmap.

Local Open Scope Z_scope.
Local Open Scope string_scope.

(* decimal literals such as 0.1 stand for the nearest binary64 value *)
Set Warnings "-inexact-float".

(** ** Python strings

    A [str] is kept as its UTF-8 encoding, one [ascii] per byte, so that
    [password.encode()] is the identity on the representation.  [len] counts
    code points: every byte that is not a continuation byte [10xxxxxx]. *)

Module PyStr.

Definition is_continuation (a : ascii) : bool :=
  let n := N_of_ascii a in (128 <=? n)%N && (n <? 192)%N.

(** [len(s)] *)
Fixpoint len (s : string) : nat :=
  match s with
  | EmptyString => 0%nat
  | String a s' => if is_continuation a then len s' else S (len s')
  end.

(** one character of the class [[A-Z]] *)
Definition in_A_Z (a : ascii) : bool :=
  let n := N_of_ascii a in (65 <=? n)%N && (n <=? 90)%N.

(** [re.search(r"[A-Z]", s)] seen as a truth value *)
Fixpoint search_A_Z (s : string) : bool :=
  match s with
  | EmptyString => false
  | String a s' => in_A_Z a || search_A_Z s'
  end.

(** truth value of a string in a condition: non-empty *)
Definition truthy (s : string) : bool :=
  match s with EmptyString => false | String _ _ => true end.

End PyStr.

(** ** User management: password policy *)

Definition msg_too_short : string := "Password must be at least 8 characters long.".
Definition msg_no_upper : string := "Password must contain at least one uppercase letter.".

Definition validate_password (password : string) : string :=
  if (PyStr.len password <? 8)%nat then msg_too_short
  else if negb (PyStr.search_A_Z password) then msg_no_upper
  else "".



(** ** [hashlib.sha256(...).hexdigest()]

    SHA-256 (FIPS 180-4) over bytes, 32-bit words kept in [N] with the
    wrap-around of the additions written out. *)

Module SHA256.
Local Open Scope N_scope.

Definition mask32 : N := 0xffffffff.
Definition add32 (x y : N) : N := N.land (x + y) mask32.
Definition rotr (n x : N) : N :=
  N.lor (N.shiftr x n) (N.land (N.shiftl x (32 - n)) mask32).
Definition not32 (x : N) : N := N.lxor x mask32.

Definition Ch (x y z : N) : N := N.lxor (N.land x y) (N.land (not32 x) z).
Definition Maj (x y z : N) : N :=
  N.lxor (N.lxor (N.land x y) (N.land x z)) (N.land y z).
Definition Sigma0 (x : N) : N := N.lxor (N.lxor (rotr 2 x) (rotr 13 x)) (rotr 22 x).
Definition Sigma1 (x : N) : N := N.lxor (N.lxor (rotr 6 x) (rotr 11 x)) (rotr 25 x).
Definition sigma0 (x : N) : N := N.lxor (N.lxor (rotr 7 x) (rotr 18 x)) (N.shiftr x 3).
Definition sigma1 (x : N) : N := N.lxor (N.lxor (rotr 17 x) (rotr 19 x)) (N.shiftr x 10).

(** The constants are read off the first primes: the first 32 bits of the
    fractional part of the cube root (round constants, 64 primes) and of
    the square root (initial state, 8 primes). *)
Definition is_prime (p : N) : bool :=
  forallb (fun d => negb (p mod d =? 0)) (map N.of_nat (seq 2 (N.to_nat p - 2))).

Definition primes : list N := List.filter is_prime (map N.of_nat (seq 2 310)).

(** the integer cube root of [n], built bit by bit from bit [bits - 1] down *)
Fixpoint cbrt_bits (bits : nat) (n r : N) : N :=
  match bits with
  | O => r
  | S b =>
      let r' := r + 2 ^ N.of_nat b in
      if r' * r' * r' <=? n then cbrt_bits b n r' else cbrt_bits b n r
  end.

Definition frac_cbrt (p : N) : N := N.land (cbrt_bits 40 (p * 2 ^ 96) 0) mask32.
Definition frac_sqrt (p : N) : N := N.land (N.sqrt (p * 2 ^ 64)) mask32.

Definition K : list N := Eval vm_compute in map frac_cbrt primes.
Definition H0 : list N := Eval vm_compute in map frac_sqrt (take 8 primes).

(** big-endian bytes of [x], [n] of them *)
Fixpoint be_bytes (n : nat) (x : N) : list N :=
  match n with
  | O => []
  | S n' => N.land (N.shiftr x (8 * N.of_nat n')) 0xff :: be_bytes n' x
  end.

Definition be_word (bs : list N) : N :=
  fold_left (fun acc b => N.lor (N.shiftl acc 8) b) bs 0.

(** the message, a [1] bit, zeros up to 56 mod 64, then the bit length *)
Definition pad (msg : list N) : list N :=
  let l := N.of_nat (length msg) in
  let z := (55 + 64 - l mod 64) mod 64 in
  msg ++ [0x80] ++ repeat 0 (N.to_nat z) ++ be_bytes 8 (8 * l).

Fixpoint chunks (fuel : nat) (k : nat) (bs : list N) : list (list N) :=
  match fuel, bs with
  | O, _ | _, [] => []
  | S fuel', _ => take k bs :: chunks fuel' k (drop k bs)
  end.

(** the 64 words of the message schedule; the list is kept newest first *)
Fixpoint schedule (n : nat) (rev_w : list N) : list N :=
  match n with
  | O => rev_w
  | S n' =>
      let w i := nth i rev_w 0 in
      let x := add32 (add32 (add32 (sigma1 (w 1%nat)) (w 6%nat)) (sigma0 (w 14%nat))) (w 15%nat) in
      schedule n' (x :: rev_w)
  end.

Definition state : Type := (N * N * N * N * N * N * N * N)%type.

Definition round (s : state) (kw : N * N) : state :=
  let '(a, b, c, d, e, f, g, h) := s in
  let '(k, w) := kw in
  let t1 := add32 (add32 (add32 (add32 h (Sigma1 e)) (Ch e f g)) k) w in
  let t2 := add32 (Sigma0 a) (Maj a b c) in
  (add32 t1 t2, a, b, c, add32 d t1, e, f, g).

Definition compress (s : state) (block : list N) : state :=
  let w16 := map be_word (chunks 16 4 block) in
  let w := rev (schedule 48 (rev w16)) in
  let '(a, b, c, d, e, f, g, h) := fold_left round (combine K w) s in
  let '(a0, b0, c0, d0, e0, f0, g0, h0) := s in
  (add32 a0 a, add32 b0 b, add32 c0 c, add32 d0 d,
   add32 e0 e, add32 f0 f, add32 g0 g, add32 h0 h).

Definition init : state :=
  (nth 0 H0 0, nth 1 H0 0, nth 2 H0 0, nth 3 H0 0,
   nth 4 H0 0, nth 5 H0 0, nth 6 H0 0, nth 7 H0 0).

Definition digest (msg : list N) : list N :=
  let p := pad msg in
  let '(a, b, c, d, e, f, g, h) :=
    fold_left compress (chunks (length p) 64 p) init in
  flat_map (be_bytes 4) [a; b; c; d; e; f; g; h].

Definition hex_digit (n : N) : ascii :=
  if n <? 10 then ascii_of_N (48 + n) else ascii_of_N (87 + n).

Definition hex_of_bytes (bs : list N) : string :=
  fold_right (fun b s => String (hex_digit (N.shiftr b 4))
                           (String (hex_digit (N.land b 0xf)) s)) EmptyString bs.

Definition bytes_of_string (s : string) : list N :=
  map N_of_ascii (list_ascii_of_string s).

Definition hexdigest (s : string) : string :=
  hex_of_bytes (digest (bytes_of_string s)).

End SHA256.

Definition hash_password (password : string) : string :=
  SHA256.hexdigest password.

(** ** Exceptions

    The exceptions the modelled code can raise, and the error monad that
    threads them. *)

Inductive exn : Type :=
  | IntegrityError     (* sqlite3: a UNIQUE constraint failed *)
  | AttributeError     (* pandas: [.dt] on a column that is not datetime-like *)
  | ZeroDivisionError  (* float division by zero *)
  | StreamlitAPIException. (* streamlit: a progress value out of range *)

Inductive result (A : Type) : Type :=
  | Ok (a : A)
  | Raise (e : exn).
Arguments Ok {A} a.
Arguments Raise {A} e.

#[global] Instance result_ret : MRet result := fun A a => Ok a.
#[global] Instance result_bind : MBind result := fun A B k r =>
  match r with
  | Ok a => k a
  | Raise e => Raise e
  end.

(** a [for] loop whose body may raise *)
Fixpoint for_each {A S : Type} (body : S -> A -> result S) (xs : list A) (s : S) : result S :=
  match xs with
  | [] => Ok s
  | x :: xs' => s' ← body s x; for_each body xs' s'
  end.

(** ** The database: three tables *)

Record User : Type := mkUser
  { u_id : Z; u_username : string; u_password : string }.

(** A [date] column holds the ISO-8601 text of a calendar date
    ([str(date)] of a [datetime.date]); [pd.to_datetime] reads the same
    calendar date back, so the row keeps the date itself. *)
Record Date : Type := mkDate
  { d_year : Z; d_month : Z; d_day : Z }.

Record Entry : Type := mkEntry
  { e_id : Z; e_user_id : Z; e_type : string; e_category : string;
    e_amount : float; e_date : Date }.

Record Budget : Type := mkBudget
  { b_id : Z; b_user_id : Z; b_category : string; b_amount : float;
    b_month : Z; b_year : Z }.

Record DB : Type := mkDB
  { users : list User; entries : list Entry; budgets : list Budget }.

Definition empty_db : DB := mkDB [] [] [].

(** [INTEGER PRIMARY KEY AUTOINCREMENT]: one more than the largest id; no
    row is ever deleted, so this is also the largest id ever used. *)
Definition next_id (ids : list Z) : Z := 1 + fold_right Z.max 0 ids.

(** ** User management *)

Definition msg_created : string := "Account created successfully.".
Definition msg_duplicate : string := "Username already exists.".

(** [INSERT INTO users (username, password) VALUES (?, ?)] under
    [username TEXT UNIQUE] *)
Definition insert_user (db : DB) (username password : string) : result DB :=
  if existsb (fun u => String.eqb (u_username u) username) (users db)
  then Raise IntegrityError
  else Ok (mkDB (users db ++ [mkUser (next_id (map u_id (users db))) username password])
                (entries db) (budgets db)).

Definition register_user (db : DB) (username password : string)
  : result (DB * (bool * string)) :=
  let pwd_error := validate_password password in
  if PyStr.truthy pwd_error then Ok (db, (false, pwd_error))
  else
    match insert_user db username (hash_password password) with
    | Ok db' => Ok (db', (true, msg_created))
    | Raise IntegrityError => Ok (db, (false, msg_duplicate))
    | Raise e => Raise e
    end.

(** [SELECT * FROM users WHERE username=? AND password=?], [fetchone()] *)
Definition login_user (db : DB) (username password : string) : option User :=
  find (fun u => String.eqb (u_username u) username
                 && String.eqb (u_password u) (hash_password password))
       (users db).

(** ** Data management *)

Definition add_entry (db : DB) (user_id : Z) (etype category : string)
    (amount : float) (date : Date) : DB :=
  mkDB (users db)
       (entries db ++ [mkEntry (next_id (map e_id (entries db))) user_id etype category amount date])
       (budgets db).

(** [WHERE user_id=? AND category=? AND month=? AND year=?] *)
Definition budget_key_matches (user_id : Z) (category : string) (month year : Z)
    (b : Budget) : bool :=
  (b_user_id b =? user_id)%Z && String.eqb (b_category b) category
  && (b_month b =? month)%Z && (b_year b =? year)%Z.

Definition update_amount (amount : float) (b : Budget) : Budget :=
  mkBudget (b_id b) (b_user_id b) (b_category b) amount (b_month b) (b_year b).

Definition set_budget (db : DB) (user_id : Z) (category : string) (amount : float)
    (month year : Z) : DB :=
  let matches := budget_key_matches user_id category month year in
  if existsb matches (budgets db)
  then mkDB (users db) (entries db)
            (map (fun b => if matches b then update_amount amount b else b) (budgets db))
  else mkDB (users db) (entries db)
            (budgets db ++ [mkBudget (next_id (map b_id (budgets db)))
                                     user_id category amount month year]).

(** The frame of a user's entries.  [read_sql_query] gives the [date]
    column as text (dtype [object]); it becomes [datetime64] only through
    [pd.to_datetime], which [get_entries_df] calls when the frame has rows. *)
Inductive dtype : Type := ObjectDtype | Datetime64.

Record EntriesFrame : Type := mkFrame
  { f_rows : list Entry; f_date_dtype : dtype }.

Definition get_entries_df (db : DB) (user_id : Z) : EntriesFrame :=
  let rows := List.filter (fun e => (e_user_id e =? user_id)%Z) (entries db) in
  match rows with
  | [] => mkFrame rows ObjectDtype
  | _ :: _ => mkFrame rows Datetime64
  end.

(** [SELECT * FROM budgets WHERE user_id=? AND year=? AND month=?] *)
Definition get_budgets (db : DB) (user_id year month : Z) : list Budget :=
  List.filter (fun b => (b_user_id b =? user_id)%Z && (b_year b =? year)%Z && (b_month b =? month)%Z)
         (budgets db).

(** ** Formatting: the [:.2f] and [:.0f] format specifications

    A fixed-point rendering with [prec] decimals of the exact binary value,
    rounded half to even, as CPython's [float.__format__] does. *)

Module Fmt.
Local Open Scope Z_scope.

Definition round_half_even (num den : Z) : Z :=
  let q := num / den in
  let r := num mod den in
  if 2 * r <? den then q
  else if den <? 2 * r then q + 1
  else if Z.even q then q else q + 1.

Definition digits (n : Z) : string := NilZero.string_of_uint (N.to_uint (Z.to_N n)).

Fixpoint zeros (n : nat) : string :=
  match n with O => "" | S n' => String "0" (zeros n') end.

(** [n / 10^prec] written with exactly [prec] decimals *)
Definition fixed (prec : nat) (n : Z) : string :=
  let ds := digits n in
  let ds := zeros (S prec - String.length ds) ++ ds in
  let k := (String.length ds - prec)%nat in
  match prec with
  | O => ds
  | S _ => substring 0 k ds ++ "." ++ substring k prec ds
  end.

Definition sign (s : bool) : string := if s then "-" else "".

Definition format_f (prec : nat) (x : float) : string :=
  match Prim2SF x with
  | S754_nan => "nan"
  | S754_infinity s => sign s ++ "inf"
  | S754_zero s => sign s ++ fixed prec 0
  | S754_finite s m e =>
      let num := Z.pos m * 10 ^ Z.of_nat prec * 2 ^ Z.max e 0 in
      let den := 2 ^ Z.max (- e) 0 in
      sign s ++ fixed prec (round_half_even num den)
  end.

End Fmt.

(** ** Budget notifications *)

(** [df[(df['type']=='expense') & (df['date'].dt.year==year)
        & (df['date'].dt.month==month)]]: the [.dt] accessor raises on a
    column that is not datetime-like. *)
Definition expenses_of_month (df : EntriesFrame) (year month : Z) : result (list Entry) :=
  match f_date_dtype df with
  | ObjectDtype => Raise AttributeError
  | Datetime64 =>
      Ok (List.filter (fun e => String.eqb (e_type e) "expense"
                           && (d_year (e_date e) =? year)%Z
                           && (d_month (e_date e) =? month)%Z)
                 (f_rows df))
  end.

(** The sum of [.groupby('category')['amount'].sum()] is pandas'
    compensated (Kahan) sum: per group a running sum and a running
    compensation, both starting at 0.  A NaN value (a NULL amount) is
    skipped, and a compensation that comes out as NaN (after an infinite
    value) is reset to 0. *)
Definition kahan_step (st : float * float) (val : float) : float * float :=
  let '(sumx, compensation) := st in
  if is_nan val then st
  else
    let y := (val - compensation)%float in
    let t := (sumx + y)%float in
    let c := (t - sumx - y)%float in
    (t, if is_nan c then 0%float else c).

Definition kahan_sum (vals : list float) : float :=
  fst (fold_left kahan_step vals (0%float, 0%float)).

(** the running (sum, compensation) of every category that occurs, the
    rows taken in row order *)
Definition groupby_state (rows : list Entry) : gmap string (float * float) :=
  fold_left (fun acc e =>
               <[e_category e :=
                   kahan_step (default (0%float, 0%float) (acc !! e_category e)) (e_amount e)]> acc)
            rows ∅.

(** [.groupby('category')['amount'].sum()]: one key per category that
    occurs, with the compensated sum of the amounts of its rows. *)
Definition groupby_sum (rows : list Entry) : gmap string float :=
  fst <$> groupby_state rows.

(** lines 108-111: the spend of the month by category *)
Definition spend_by_category (db : DB) (user_id year month : Z)
  : result (gmap string float) :=
  let df := get_entries_df db user_id in
  rows ← expenses_of_month df year month;
  mret (groupby_sum rows).

(** [x / y].  Python raises on a zero divisor; with a [numpy.float64]
    numerator the quotient would be an infinity or a NaN and a warning, a
    difference that the guard of the loop body leaves unobservable. *)
Definition py_div (x y : float) : result float :=
  if (y =? 0)%float then Raise ZeroDivisionError else Ok (x / y)%float.

Definition money (x : float) : string := "₹" ++ Fmt.format_f 2 x.

Definition msg_exceeded (category : string) (used amount : float) : string :=
  "❌ Budget EXCEEDED for " ++ category ++ "! Spent " ++ money used ++ " of " ++ money amount.

Definition msg_almost (category : string) (used amount : float) : string :=
  "🚨 Budget almost used for " ++ category ++ " (" ++ money used ++ "/" ++ money amount ++ ")".

Definition msg_warning (category : string) (pct used amount : float) : string :=
  "🔥 Warning: " ++ category ++ " at " ++ Fmt.format_f 0 (pct * 100)%float ++ "% ("
    ++ money used ++ "/" ++ money amount ++ ")".

Definition msg_early (category : string) (pct used amount : float) : string :=
  "⚠ Early alert: " ++ category ++ " at " ++ Fmt.format_f 0 (pct * 100)%float ++ "% ("
    ++ money used ++ "/" ++ money amount ++ ")".

(** [spent.get(row['category'], 0)] *)
Definition used_of (spent : gmap string float) (row : Budget) : float :=
  default 0%float (spent !! b_category row).

(** [pct = used / row['amount']], evaluated only under
    [if row['amount'] > 0]: [None] when the division is not reached *)
Definition pct_of (spent : gmap string float) (row : Budget) : option (result float) :=
  if (0 <? b_amount row)%float
  then Some (py_div (used_of spent row) (b_amount row))
  else None.

(** the body of [for _, row in budgets.iterrows()] *)
Definition notify_row (spent : gmap string float) (notifications : list string)
    (row : Budget) : result (list string) :=
  let used := used_of spent row in
  match pct_of spent row with
  | None => Ok notifications
  | Some division =>
    pct ← division;
    if (1.0 <=? pct)%float then
      Ok (notifications ++ [msg_exceeded (b_category row) used (b_amount row)])%list
    else if (0.75 <=? pct)%float then
      Ok (notifications ++ [msg_almost (b_category row) used (b_amount row)])%list
    else if (0.5 <=? pct)%float then
      Ok (notifications ++ [msg_warning (b_category row) pct used (b_amount row)])%list
    else if (0.25 <=? pct)%float then
      Ok (notifications ++ [msg_early (b_category row) pct used (b_amount row)])%list
    else Ok notifications
  end.

Definition check_budget_notifications (db : DB) (user_id year month : Z)
  : result (list string) :=
  let budgets := get_budgets db user_id year month in
  match budgets with
  | [] => Ok []
  | _ :: _ =>
      spent ← spend_by_category db user_id year month;
      for_each (notify_row spent) budgets []
  end.

(** ** Notions used to state the properties *)

(** what the loop body adds to the list for one row *)
Definition emitted (spent : gmap string float) (row : Budget) : list string :=
  match notify_row spent [] row with
  | Ok msgs => msgs
  | Raise _ => []
  end.

(** the key a budget is stored under *)
Definition budget_key (b : Budget) : Z * string * Z * Z :=
  (b_user_id b, b_category b, b_month b, b_year b).

(** at most one budget row per (user_id, category, month, year) *)
Definition unique_keys (bs : list Budget) : Prop := List.NoDup (map budget_key bs).

(** one [set_budget] call: (user_id, category, amount, month, year) *)
Definition budget_call : Type := (Z * string * float * Z * Z)%type.

Definition apply_call (db : DB) (c : budget_call) : DB :=
  let '(user_id, category, amount, month, year) := c in
  set_budget db user_id category amount month year.

Definition set_budgets (db : DB) (calls : list budget_call) : DB :=
  fold_left apply_call calls db.

Definition username_exists (db : DB) (username : string) : bool :=
  existsb (fun u => String.eqb (u_username u) username) (users db).

(** the user has at least one entry, of any type and date *)
Definition has_entries (db : DB) (user_id : Z) : bool :=
  existsb (fun e => (e_user_id e =? user_id)%Z) (entries db).

(** the mapping of lines 109-111 once the [date] column is datetime-like *)
Definition spent_of (db : DB) (user_id year month : Z) : gmap string float :=
  groupby_sum
    (List.filter (fun e => String.eqb (e_type e) "expense"
                      && (d_year (e_date e) =? year)%Z
                      && (d_month (e_date e) =? month)%Z)
            (List.filter (fun e => (e_user_id e =? user_id)%Z) (entries db))).

(** the rows [spend_by_category] adds up for one category *)
Definition matching_expenses (db : DB) (user_id year month : Z) (category : string)
  : list Entry :=
  List.filter (fun e => (e_user_id e =? user_id)%Z
                   && String.eqb (e_type e) "expense"
                   && (d_year (e_date e) =? year)%Z
                   && (d_month (e_date e) =? month)%Z
                   && String.eqb (e_category e) category)
         (entries db).

Definition sum_amounts (rows : list Entry) : float :=
  kahan_sum (map e_amount rows).

(** the scenario of the specification: budget Food = 1000 for June 2024,
    two Food expenses and one Salary income in that month *)
Definition scenario_db : DB :=
  let db := set_budget empty_db 1 "Food" 1000%float 6 2024 in
  let db := add_entry db 1 "expense" "Food" 300%float (mkDate 2024 6 5) in
  let db := add_entry db 1 "expense" "Food" 450%float (mkDate 2024 6 20) in
  add_entry db 1 "income" "Salary" 5000%float (mkDate 2024 6 1).

(** a user who has set a budget and has not recorded any entry yet *)
Definition budget_only_db : DB :=
  set_budget empty_db 1 "Food" 1000%float 6 2024.

(** a budget for Food, and an income as the only entry of the month *)
Definition income_only_db : DB :=
  add_entry budget_only_db 1 "income" "Salary" 5000%float (mkDate 2024 6 1).

(** heavy spending and no budget *)
Definition spend_only_db : DB :=
  add_entry (add_entry empty_db 1 "expense" "Food" 90000%float (mkDate 2024 6 5))
            1 "expense" "Bills" 120000%float (mkDate 2024 6 7).

(** ** The dashboard *)

(** The "Add Entry" button (lines 181-188): the entry is stored, then the
    budgets of the current month are checked at once; the alerts are what
    goes to [st.toast]. *)
Definition on_add_entry (db : DB) (uid : Z) (etype category : string) (amount : float)
    (date today : Date) : DB * result (list string) :=
  let db' := add_entry db uid etype category amount date in
  (db', check_budget_notifications db' uid (d_year today) (d_month today)).

(** The "Set Budget" button (lines 194-196). *)
Definition on_set_budget (db : DB) (uid : Z) (b_category : string) (b_amount : float)
    (today : Date) : DB :=
  set_budget db uid b_category b_amount (d_month today) (d_year today).

(** the builtin [min(x, y)]: [y] when [y < x], else [x] *)
Definition py_min (x y : float) : float := if (y <? x)%float then y else x.

(** [exp_df.groupby('category')['amount'].sum() if not exp_df.empty else {}]
    with [exp_df = df[df['type'] == 'expense']] (lines 221-222); the
    [date] column is not read. *)
Definition overview_spent (df : EntriesFrame) : gmap string float :=
  let exp_df := List.filter (fun e => String.eqb (e_type e) "expense") (f_rows df) in
  match exp_df with
  | [] => ∅
  | _ :: _ => groupby_sum exp_df
  end.

(** [f"{row['category']}: ₹{used:.2f}/₹{row['amount']:.2f}"] *)
Definition overview_label (category : string) (used amount : float) : string :=
  category ++ ": " ++ money used ++ "/" ++ money amount.

(** [math.isclose(a, b, rel_tol=1e-9, abs_tol=1e-9)] *)
Definition isclose (a b : float) : bool :=
  if (a =? b)%float then true
  else if is_infinity a || is_infinity b then false
  else
    let diff := abs (b - a) in
    (diff <=? abs (1e-9 * b))%float || (diff <=? abs (1e-9 * a))%float
    || (diff <=? 1e-9)%float.

(** [st.progress(value)] for a float: the value must lie in [0.0, 1.0] or
    be close to one of the two bounds, else streamlit raises *)
Definition st_progress (value : float) : result unit :=
  if ((0 <=? value)%float && (value <=? 1)%float) || isclose value 0 || isclose value 1
  then Ok tt
  else Raise StreamlitAPIException.

(** the body of the loop of the budget overview (lines 224-227): the value
    shown by [st.progress] and the text shown by [st.write] *)
Definition overview_row (spent : gmap string float) (shown : list (float * string))
    (row : Budget) : result (list (float * string)) :=
  let used := used_of spent row in
  progress ← (if (0 <? b_amount row)%float
              then pct ← py_div used (b_amount row); mret (py_min pct 1.0%float)
              else mret 0%float);
  _ ← st_progress progress;
  mret (shown ++ [(progress, overview_label (b_category row) used (b_amount row))])%list.

(** the budget overview of the dashboard (lines 219-227) *)
Definition budget_overview (db : DB) (uid : Z) (today : Date)
  : result (list (float * string)) :=
  let df := get_entries_df db uid in
  let budgets := get_budgets db uid (d_year today) (d_month today) in
  match budgets with
  | [] => Ok []
  | _ :: _ => for_each (overview_row (overview_spent df)) budgets []
  end.

(** ** Invariants of the store *)

(** [username TEXT UNIQUE] *)
Definition usernames_unique (db : DB) : Prop := List.NoDup (map u_username (users db)).

(** [id INTEGER PRIMARY KEY] in the three tables *)
Definition primary_keys_unique (db : DB) : Prop :=
  List.NoDup (map u_id (users db))
  /\ List.NoDup (map e_id (entries db))
  /\ List.NoDup (map b_id (budgets db)).

(** Every amount of these budget rows is a number.  SQLite keeps a NaN as
    NULL, which is read back as [None]; the number input of the dashboard
    supplies numbers only. *)
Definition amounts_are_numbers (bs : list Budget) : bool :=
  forallb (fun b => negb (is_nan (b_amount b))) bs.

(** the same for the amounts of the entries *)
Definition entry_amounts_are_numbers (es : list Entry) : bool :=
  forallb (fun e => negb (is_nan (e_amount e))) es.

(** every amount in the store is a number *)
Definition numbers_only (db : DB) : bool :=
  amounts_are_numbers (budgets db) && entry_amounts_are_numbers (entries db).

(** "An uppercase letter", in the words of the specification, read on the
    UTF-8 bytes: a letter A-Z, or an uppercase letter of Latin-1 (U+00C0 to
    U+00DE without the sign U+00D7), written as the byte C3 followed by a
    byte in 80..9E other than 97.  Unicode has further uppercase letters. *)
Fixpoint has_uppercase_letter (s : string) : bool :=
  match s with
  | EmptyString => false
  | String a s' =>
      PyStr.in_A_Z a
      || match s' with
         | String b _ =>
             (N_of_ascii a =? 195)%N
             && (128 <=? N_of_ascii b)%N && (N_of_ascii b <=? 158)%N
             && negb (N_of_ascii b =? 151)%N
         | EmptyString => false
         end
      || has_uppercase_letter s'
  end.

(** one budget of 1000 per category and one expense per category, one for
    each tier and one below all thresholds *)
Definition tiers_db : DB :=
  let budget db c := set_budget db 1 c 1000%float 6 2024 in
  let expense db c a := add_entry db 1 "expense" c a (mkDate 2024 6 15) in
  let db := fold_left budget ["Food"; "Transport"; "Shopping"; "Bills"; "Health"] empty_db in
  fold_left (fun db ca => expense db (fst ca) (snd ca))
    [("Food", 1200); ("Transport", 800); ("Shopping", 600); ("Bills", 300); ("Health", 100)]%float
    db.

(** a character of a lowercase hexadecimal numeral *)
Definition is_lower_hex (a : ascii) : bool :=
  let n := N_of_ascii a in
  ((48 <=? n)%N && (n <=? 57)%N) || ((97 <=? n)%N && (n <=? 102)%N).

(** the entries with their dates replaced *)
Definition with_dates (f : Entry -> Date) (db : DB) : DB :=
  mkDB (users db)
       (map (fun e => mkEntry (e_id e) (e_user_id e) (e_type e) (e_category e)
                              (e_amount e) (f e)) (entries db))
       (budgets db).

(** the entry that [add_entry] is about to store is an expense of the user
    in the month *)
Definition counts_for (uid year month : Z) (user_id : Z) (etype : string) (date : Date) : bool :=
  (user_id =? uid)%Z && String.eqb etype "expense"
  && (d_year date =? year)%Z && (d_month date =? month)%Z.

(** * Properties *)

(** ** Sanity checks of the helpers against CPython *)

Example validate_ok : validate_password "Password1" = "".
Proof. reflexivity. Qed.

Example validate_counts_code_points : validate_password "Pässwor" = msg_too_short.
Proof. reflexivity. Qed.

Example sha256_constants :
  length SHA256.K = 64%nat
  /\ nth 0 SHA256.K 0%N = 0x428a2f98%N /\ nth 63 SHA256.K 0%N = 0xc67178f2%N
  /\ nth 0 SHA256.H0 0%N = 0x6a09e667%N /\ nth 7 SHA256.H0 0%N = 0x5be0cd19%N.
Proof. repeat split. Qed.

Example sha256_empty :
  hash_password "" = "e3b0c44298fc1c149afbf4c8996fb92427ae41e4649b934ca495991b7852b855".
Proof. vm_compute. reflexivity. Qed.

Example sha256_abc :
  hash_password "abc" = "ba7816bf8f01cfea414140de5dae2223b00361a396177a9cb410ff61f20015ad".
Proof. vm_compute. reflexivity. Qed.

Example sha256_two_blocks :
  hash_password "aaaaaaaaaaaaaaaaaaaaaaaaaaaaaaaaaaaaaaaaaaaaaaaaaaaaaaaa"
  = "b35439a4ac6f0948b6d6f9e3c6af0f5f590ce20f1bde7090ef7970686ec6738a".
Proof. vm_compute. reflexivity. Qed.

Example sha256_full_block :
  hash_password "aaaaaaaaaaaaaaaaaaaaaaaaaaaaaaaaaaaaaaaaaaaaaaaaaaaaaaaaaaaaaaaa"
  = "ffe054fe7ae0cb6dc65c3af9b61d5209f439851db43d0ba5997337df154668eb".
Proof. vm_compute. reflexivity. Qed.

Example sha256_utf8 :
  hash_password "Pässword1" = "fbdea71df3ccf6b5b344050d00b31c348feb6c4863d7808cb3e89181f47d41e1".
Proof. vm_compute. reflexivity. Qed.

Example format_2f :
  map (Fmt.format_f 2) [750; 0.125; 2.5; 1e22; 0; -0; infinity; nan]%float
  = ["750.00"; "0.12"; "2.50"; "10000000000000000000000.00"; "0.00"; "-0.00"; "inf"; "nan"].
Proof. vm_compute. reflexivity. Qed.

Example kahan_sum_compensates :
  kahan_sum [0.1; 0.2; 0.3]%float = 0.6%float
  /\ (0.1 + 0.2 + 0.3)%float = 0.6000000000000001%float
  /\ kahan_sum [9007199254740992; 1; 1]%float = 9007199254740994%float
  /\ kahan_sum [1; nan; 2]%float = 3%float.
Proof. repeat split. Qed.

Example notifications_use_compensated_sum :
  check_budget_notifications
    (add_entry (add_entry (add_entry (set_budget empty_db 1 "Food" 0.8 6 2024)
       1 "expense" "Food" 0.1 (mkDate 2024 6 1))
       1 "expense" "Food" 0.2 (mkDate 2024 6 2))
       1 "expense" "Food" 0.3 (mkDate 2024 6 3)) 1 2024 6
  = Ok ["🔥 Warning: Food at 75% (₹0.60/₹0.80)"].
Proof. vm_compute. reflexivity. Qed.

Example st_progress_range :
  map st_progress [0; 1; 0.5; -0.5; -1e-10; -2e-9; nan]%float
  = [Ok tt; Ok tt; Ok tt; Raise StreamlitAPIException; Ok tt;
     Raise StreamlitAPIException; Raise StreamlitAPIException].
Proof. vm_compute. reflexivity. Qed.

Example format_0f :
  map (Fmt.format_f 0) [750; 0.5; 1.5; 2.5; 74.5; 75.5]%float
  = ["750"; "0"; "2"; "2"; "74"; "76"].
Proof. vm_compute. reflexivity. Qed.

(** ** Binary64 comparisons

    The comparisons of the loop body, read through their specification
    ([Prim2SF]) and decided by cases on the class of the operands. *)

Ltac float_spec :=
  rewrite ?FloatAxioms.ltb_spec, ?FloatAxioms.leb_spec, ?FloatAxioms.eqb_spec,
    ?FloatAxioms.div_spec.

(** the comparisons of exponents and mantissas, decided in [Z] *)
Ltac cmp_cases :=
  rewrite ?Pos.compare_cont_spec, ?Pos2Z.inj_compare;
  repeat match goal with
         | |- context [Z.compare ?a ?b] => destruct (Z.compare_spec a b)
         end;
  cbn [Pos.switch_Eq CompOpp]; try discriminate; try reflexivity; try lia.

Ltac sf_cases :=
  repeat match goal with
         | |- context [Prim2SF ?x] =>
             is_var x; destruct (Prim2SF x) as [[|]|[|]| |[|] ? ?]
         end;
  cbn [SFltb SFleb SFeqb SFcompare SF64div SFdiv xorb];
  try discriminate; try reflexivity.

Section FloatFacts.
Local Open Scope float_scope.

Lemma Prim2SF_zero : Prim2SF 0 = S754_zero false.
Proof. reflexivity. Qed.

Lemma float_ltb_not_leb (x y : float) : (x <? y) = true -> (y <=? x) = false.
Proof. float_spec. sf_cases; cmp_cases. Qed.

Lemma float_leb_ltb_trans (a x b : float) :
  (a <=? x) = true -> (x <? b) = true -> (a <? b) = true.
Proof. float_spec. sf_cases; cmp_cases. Qed.

Lemma float_pos_nonzero (a : float) : (0 <? a) = true -> (a =? 0) = false.
Proof. float_spec. rewrite Prim2SF_zero. sf_cases. Qed.

Lemma float_zero_not_pos (a : float) : (a =? 0) = true -> (0 <? a) = false.
Proof. float_spec. rewrite Prim2SF_zero. sf_cases. Qed.

Lemma float_nonpos_not_pos (a : float) : (a <=? 0) = true -> (0 <? a) = false.
Proof. float_spec. rewrite Prim2SF_zero. sf_cases. Qed.

Lemma float_zero_div_SF (a : float) :
  (0 <? a) = true -> Prim2SF (0 / a) = S754_zero false.
Proof. float_spec. rewrite Prim2SF_zero. sf_cases. Qed.

Lemma float_zero_div (a : float) : (0 <? a) = true -> 0 / a = 0.
Proof. intros H. apply Prim2SF_inj. now rewrite float_zero_div_SF. Qed.

(** below a threshold [b], no threshold [a >= b] is reached *)
Lemma float_below (a b x : float) :
  (a <? b) = false -> (x <? b) = true -> (a <=? x) = false.
Proof.
  intros Hab Hx. destruct (a <=? x) eqn:Ha; [|reflexivity].
  rewrite (float_leb_ltb_trans a x b Ha Hx) in Hab. discriminate.
Qed.

End FloatFacts.

(** ** The loop of [check_budget_notifications] *)

Section NotifyRow.
Local Open Scope float_scope.
Variable spent : gmap string float.

(** The guard [row['amount'] > 0] keeps the divisor away from zero: the
    body never raises, and what it returns is the list it was given followed
    by the messages of the row. *)
Lemma notify_row_emitted (notifications : list string) (row : Budget) :
  notify_row spent notifications row = Ok (notifications ++ emitted spent row)%list.
Proof.
  unfold emitted, notify_row, pct_of, py_div.
  destruct (0 <? b_amount row) eqn:Hpos; cbn.
  - rewrite (float_pos_nonzero _ Hpos). cbn.
    repeat match goal with
           | |- context [if ?c then _ else _] => destruct c
           end; cbn; rewrite ?app_nil_r; reflexivity.
  - now rewrite app_nil_r.
Qed.

Lemma for_each_notify_row (rows : list Budget) (notifications : list string) :
  for_each (notify_row spent) rows notifications
  = Ok (notifications ++ flat_map (emitted spent) rows)%list.
Proof.
  revert notifications. induction rows as [|row rows IH]; intros acc; cbn.
  - now rewrite app_nil_r.
  - rewrite notify_row_emitted. cbn. rewrite IH. now rewrite <- app_assoc.
Qed.

(** the ratio of a row with a positive amount *)
Lemma notify_row_pct (notifications : list string) (row : Budget) :
  (0 <? b_amount row) = true ->
  notify_row spent notifications row =
    let used := used_of spent row in
    let amount := b_amount row in
    let pct := used / amount in
    if 1 <=? pct then Ok (notifications ++ [msg_exceeded (b_category row) used amount])%list
    else if 0.75 <=? pct then Ok (notifications ++ [msg_almost (b_category row) used amount])%list
    else if 0.5 <=? pct then Ok (notifications ++ [msg_warning (b_category row) pct used amount])%list
    else if 0.25 <=? pct then Ok (notifications ++ [msg_early (b_category row) pct used amount])%list
    else Ok notifications.
Proof.
  intros Hpos. unfold notify_row, pct_of, py_div.
  rewrite Hpos, (float_pos_nonzero _ Hpos). reflexivity.
Qed.

End NotifyRow.

(** ** [check_budget_notifications] as a whole *)

Lemma filter_nil_existsb {A : Type} (f : A -> bool) (l : list A) :
  List.filter f l = [] <-> existsb f l = false.
Proof.
  induction l as [|a l IH]; cbn; [tauto|].
  destruct (f a); cbn; [split; discriminate | exact IH].
Qed.

Lemma spend_by_category_has_entries (db : DB) (user_id year month : Z) :
  spend_by_category db user_id year month =
    if has_entries db user_id then Ok (spent_of db user_id year month)
    else Raise AttributeError.
Proof.
  unfold spend_by_category, get_entries_df, has_entries, spent_of.
  destruct (List.filter _ (entries db)) as [|e rows] eqn:Hrows.
  - apply filter_nil_existsb in Hrows. now rewrite Hrows.
  - destruct (existsb _ (entries db)) eqn:Hex; [reflexivity|].
    apply filter_nil_existsb in Hex. congruence.
Qed.

(** No budget: the empty list, before the entries are read.  Budgets and
    at least one entry: the messages of the rows in the order of the budget
    table.  Budgets and no entry at all: [AttributeError]. *)
Lemma check_budget_notifications_cases (db : DB) (user_id year month : Z) :
  check_budget_notifications db user_id year month =
    match get_budgets db user_id year month with
    | [] => Ok []
    | rows =>
        if has_entries db user_id
        then Ok (flat_map (emitted (spent_of db user_id year month)) rows)
        else Raise AttributeError
    end.
Proof.
  unfold check_budget_notifications.
  destruct (get_budgets db user_id year month) as [|row rows]; [reflexivity|].
  rewrite spend_by_category_has_entries.
  destruct (has_entries db user_id); [|reflexivity].
  cbn [mbind result_bind]. apply for_each_notify_row.
Qed.

(** ** Tiers of the notification engine *)

Section Tiers.
Local Open Scope float_scope.

(** C1. For a budget row with amount > 0 the loop body adds exactly one
    message, chosen by the first threshold that [pct = used / amount]
    reaches, in the order 1.00 (EXCEEDED), 0.75 (almost used), 0.5
    (Warning ... at N%) and 0.25 (Early alert ... at N%), and no message
    when pct < 0.25; the texts are the ones of the source.  In a store of
    numbers the result of the function is the messages of the rows, in the
    order of the budget table.  In the scenario of the specification
    [used] is 750, [pct] is 0.75 and the only message is the "almost used"
    one for Food; with one budget per tier, each tier gives its own text. *)
Theorem notifications_tiers :
  (forall (spent : gmap string float) (notifications : list string) (row : Budget),
      (0 <? b_amount row) = true ->
      let category := b_category row in
      let used := used_of spent row in
      let amount := b_amount row in
      let pct := used / amount in
      let rupees x := ("₹" ++ Fmt.format_f 2 x)%string in
      let percent := Fmt.format_f 0 (pct * 100) in
      ((1 <=? pct) = true ->
         notify_row spent notifications row
         = Ok (notifications
               ++ [("❌ Budget EXCEEDED for " ++ category ++ "! Spent "
                    ++ rupees used ++ " of " ++ rupees amount)%string])%list)
      /\ ((0.75 <=? pct) = true -> (pct <? 1) = true ->
         notify_row spent notifications row
         = Ok (notifications
               ++ [("🚨 Budget almost used for " ++ category ++ " ("
                    ++ rupees used ++ "/" ++ rupees amount ++ ")")%string])%list)
      /\ ((0.5 <=? pct) = true -> (pct <? 0.75) = true ->
         notify_row spent notifications row
         = Ok (notifications
               ++ [("🔥 Warning: " ++ category ++ " at " ++ percent ++ "% ("
                    ++ rupees used ++ "/" ++ rupees amount ++ ")")%string])%list)
      /\ ((0.25 <=? pct) = true -> (pct <? 0.5) = true ->
         notify_row spent notifications row
         = Ok (notifications
               ++ [("⚠ Early alert: " ++ category ++ " at " ++ percent ++ "% ("
                    ++ rupees used ++ "/" ++ rupees amount ++ ")")%string])%list)
      /\ ((pct <? 0.25) = true ->
         notify_row spent notifications row = Ok notifications))
  /\ (forall (db : DB) (user_id year month : Z),
        numbers_only db = true ->
        has_entries db user_id = true ->
        check_budget_notifications db user_id year month
        = Ok (flat_map (emitted (spent_of db user_id year month))
                       (get_budgets db user_id year month)))
  /\ (let food := mkBudget 1 1 "Food" 1000 6 2024 in
      let spent := spent_of scenario_db 1 2024 6 in
      get_budgets scenario_db 1 2024 6 = [food]
      /\ used_of spent food = 750
      /\ used_of spent food / b_amount food = 0.75)
  /\ check_budget_notifications scenario_db 1 2024 6
     = Ok ["🚨 Budget almost used for Food (₹750.00/₹1000.00)"%string]
  /\ check_budget_notifications tiers_db 1 2024 6
     = Ok ["❌ Budget EXCEEDED for Food! Spent ₹1200.00 of ₹1000.00"%string;
           "🚨 Budget almost used for Transport (₹800.00/₹1000.00)"%string;
           "🔥 Warning: Shopping at 60% (₹600.00/₹1000.00)"%string;
           "⚠ Early alert: Bills at 30% (₹300.00/₹1000.00)"%string].
Proof.
  split; [|split; [|split; [|split]]].
  - intros spent notifications row Hpos category used amount pct rupees percent.
    rewrite (notify_row_pct spent notifications row Hpos).
    subst percent rupees pct used amount category. cbv zeta.
    repeat split.
    + intros ->. reflexivity.
    + intros H075 H1. rewrite (float_ltb_not_leb _ _ H1), H075. reflexivity.
    + intros H05 H075.
      rewrite (float_below 1 0.75 _ eq_refl H075), (float_ltb_not_leb _ _ H075), H05.
      reflexivity.
    + intros H025 H05.
      rewrite (float_below 1 0.5 _ eq_refl H05), (float_below 0.75 0.5 _ eq_refl H05),
        (float_ltb_not_leb _ _ H05), H025.
      reflexivity.
    + intros H025.
      rewrite (float_below 1 0.25 _ eq_refl H025), (float_below 0.75 0.25 _ eq_refl H025),
        (float_below 0.5 0.25 _ eq_refl H025), (float_ltb_not_leb _ _ H025).
      reflexivity.
  - intros db user_id year month _ Hsome.
    rewrite check_budget_notifications_cases, Hsome.
    now destruct (get_budgets db user_id year month).
  - repeat split; vm_compute; reflexivity.
  - vm_compute. reflexivity.
  - vm_compute. reflexivity.
Qed.

Lemma notifications_tiers_witness :
  notify_row {["Food"%string := 600]} [] (mkBudget 1 1 "Food" 1000 6 2024)
  = Ok ["🔥 Warning: Food at 60% (₹600.00/₹1000.00)"%string].
Proof.
  refine (proj1 (proj2 (proj2 (proj1 notifications_tiers
            {["Food"%string := 600]} [] (mkBudget 1 1 "Food" 1000 6 2024) _))) _ _);
    vm_compute; reflexivity.
Defined.

(** C7. A budget row whose amount is 0 gets no ratio and no message,
    whatever was spent in its category. *)
Theorem zero_budget_no_message
    (spent : gmap string float) (notifications : list string) (row : Budget) :
  (b_amount row =? 0) = true ->
  pct_of spent row = None
  /\ notify_row spent notifications row = Ok notifications
  /\ emitted spent row = [].
Proof.
  intros Hzero. apply float_zero_not_pos in Hzero.
  unfold emitted, notify_row, pct_of. rewrite Hzero. repeat split.
Qed.

Lemma zero_budget_no_message_witness :
  pct_of {["Food"%string := 99999]} (mkBudget 1 1 "Food" 0 6 2024) = None
  /\ notify_row {["Food"%string := 99999]} [] (mkBudget 1 1 "Food" 0 6 2024) = Ok []
  /\ emitted {["Food"%string := 99999]} (mkBudget 1 1 "Food" 0 6 2024) = [].
Proof.
  apply (zero_budget_no_message {["Food"%string := 99999]} []
           (mkBudget 1 1 "Food" 0 6 2024)).
  vm_compute. reflexivity.
Defined.

End Tiers.

(** ** Guards of the notification engine *)

(** C8. With no budget row for the period the result is the empty list,
    whatever entries exist. *)
Theorem no_budgets_no_notifications (db : DB) (user_id year month : Z) :
  get_budgets db user_id year month = [] ->
  check_budget_notifications db user_id year month = Ok [].
Proof.
  intros Hnone. unfold check_budget_notifications. now rewrite Hnone.
Qed.

Lemma no_budgets_no_notifications_witness :
  has_entries spend_only_db 1 = true
  /\ check_budget_notifications spend_only_db 1 2024 6 = Ok [].
Proof.
  split; [reflexivity|].
  apply (no_budgets_no_notifications spend_only_db 1 2024 6). reflexivity.
Defined.

Lemma set_budget_stores (db : DB) (user_id : Z) (category : string) (amount : float)
    (month year : Z) :
  exists row,
    In row (get_budgets (set_budget db user_id category amount month year) user_id year month)
    /\ b_category row = category /\ b_amount row = amount.
Proof.
  assert (Hkey : forall b, budget_key_matches user_id category month year b = true ->
                 ((b_user_id b =? user_id)%Z && (b_year b =? year)%Z
                  && (b_month b =? month)%Z) = true /\ b_category b = category).
  { intros b. unfold budget_key_matches. rewrite !andb_true_iff, String.eqb_eq. tauto. }
  unfold set_budget, get_budgets.
  destruct (existsb _ (budgets db)) eqn:Hex; cbn [budgets].
  - apply existsb_exists in Hex as (b & Hin & Hb).
    exists (update_amount amount b). rewrite filter_In, in_map_iff.
    destruct (Hkey b Hb) as [Hsel Hcat].
    repeat split; [|exact Hsel|exact Hcat].
    exists b. now rewrite Hb.
  - exists (mkBudget (next_id (map b_id (budgets db))) user_id category amount month year).
    rewrite filter_In, in_app_iff. cbn. rewrite !Z.eqb_refl. auto.
Qed.

Section Guard.
Local Open Scope float_scope.

(** C10. The division is guarded by [amount > 0]: for a row whose amount
    is <= 0, negative amounts included (the store keeps any amount it is
    given), no ratio is computed and the list is left as it is; a ratio that
    is computed has a positive divisor and is the quotient itself; and no
    division by zero is ever raised, by the loop body or by the function. *)
Theorem nonpositive_budget_guard :
  (forall (spent : gmap string float) (notifications : list string) (row : Budget),
      (b_amount row <=? 0) = true ->
      pct_of spent row = None
      /\ notify_row spent notifications row = Ok notifications)
  /\ (forall (spent : gmap string float) (row : Budget) (division : result float),
      pct_of spent row = Some division ->
      (0 <? b_amount row) = true
      /\ division = Ok (used_of spent row / b_amount row))
  /\ (forall (spent : gmap string float) (notifications : list string) (row : Budget),
      notify_row spent notifications row <> Raise ZeroDivisionError)
  /\ (forall (db : DB) (user_id year month : Z),
      check_budget_notifications db user_id year month <> Raise ZeroDivisionError)
  /\ (forall (db : DB) (user_id : Z) (category : string) (amount : float) (month year : Z),
      exists row,
        In row (get_budgets (set_budget db user_id category amount month year)
                            user_id year month)
        /\ b_category row = category /\ b_amount row = amount).
Proof.
  split; [|split; [|split; [|split]]].
  - intros spent notifications row Hle. apply float_nonpos_not_pos in Hle.
    unfold notify_row, pct_of. now rewrite Hle.
  - intros spent row division. unfold pct_of, py_div.
    destruct (0 <? b_amount row) eqn:Hpos; [|discriminate].
    rewrite (float_pos_nonzero _ Hpos). now intros [= <-].
  - intros spent notifications row. now rewrite notify_row_emitted.
  - intros db user_id year month. rewrite check_budget_notifications_cases.
    destruct (get_budgets _ _ _ _); [discriminate|].
    destruct (has_entries _ _); discriminate.
  - apply set_budget_stores.
Qed.

Lemma nonpositive_budget_guard_witness :
  pct_of {["Food"%string := 120]} (mkBudget 1 1 "Food" (-50) 6 2024) = None
  /\ notify_row {["Food"%string := 120]} [] (mkBudget 1 1 "Food" (-50) 6 2024) = Ok [].
Proof.
  apply (proj1 nonpositive_budget_guard). vm_compute. reflexivity.
Defined.

End Guard.

(** ** Rows without spend *)

Section NoSpend.
Local Open Scope float_scope.

(** C6, at the failing input: a budget exists for the period and the user
    has not recorded any entry.  The [date] column of the empty frame is
    not converted, and [.dt] raises. *)
Theorem no_entries_raises :
  get_budgets budget_only_db 1 2024 6 = [mkBudget 1 1 "Food" 1000 6 2024]
  /\ f_rows (get_entries_df budget_only_db 1) = []
  /\ check_budget_notifications budget_only_db 1 2024 6 = Raise AttributeError.
Proof. repeat split. Qed.

(** The same for every user without entries who has a budget in the period. *)
Lemma budgets_without_entries_raise (db : DB) (user_id year month : Z) :
  get_budgets db user_id year month <> [] ->
  has_entries db user_id = false ->
  check_budget_notifications db user_id year month = Raise AttributeError.
Proof.
  intros Hrows Hnone. rewrite check_budget_notifications_cases, Hnone.
  now destruct (get_budgets db user_id year month).
Qed.

Lemma budgets_without_entries_raise_example :
  check_budget_notifications budget_only_db 1 2024 7 = Ok []
  /\ check_budget_notifications budget_only_db 1 2024 6 = Raise AttributeError.
Proof.
  split; [reflexivity|].
  apply (budgets_without_entries_raise budget_only_db 1 2024 6); [discriminate|reflexivity].
Defined.

(** With at least one entry (of any kind) the function returns, and a row
    whose category has no expense in the period has [used = 0] and no
    message. *)
Lemma no_spend_no_message (db : DB) (user_id year month : Z) (row : Budget) :
  has_entries db user_id = true ->
  spent_of db user_id year month !! b_category row = None ->
  spend_by_category db user_id year month = Ok (spent_of db user_id year month)
  /\ used_of (spent_of db user_id year month) row = 0
  /\ emitted (spent_of db user_id year month) row = [].
Proof.
  intros Hsome Hnone. rewrite spend_by_category_has_entries, Hsome.
  assert (Hused : used_of (spent_of db user_id year month) row = 0)
    by (unfold used_of; now rewrite Hnone).
  repeat split; [exact Hused|].
  unfold emitted.
  destruct (0 <? b_amount row) eqn:Hpos.
  - rewrite (notify_row_pct _ [] row Hpos). cbv zeta.
    rewrite Hused, (float_zero_div _ Hpos). reflexivity.
  - unfold notify_row, pct_of. now rewrite Hpos.
Qed.

Lemma no_spend_no_message_example :
  let food := mkBudget 1 1 "Food" 1000 6 2024 in
  get_budgets income_only_db 1 2024 6 = [food]
  /\ used_of (spent_of income_only_db 1 2024 6) food = 0
  /\ check_budget_notifications income_only_db 1 2024 6 = Ok [].
Proof.
  cbv zeta. split; [reflexivity|].
  destruct (no_spend_no_message income_only_db 1 2024 6
              (mkBudget 1 1 "Food" 1000 6 2024) eq_refl eq_refl) as (_ & Hused & _).
  split; [exact Hused|]. vm_compute. reflexivity.
Defined.

End NoSpend.

(** ** Password policy *)

Lemma search_A_Z_spec (s : string) :
  PyStr.search_A_Z s = true <->
  exists a, In a (list_ascii_of_string s) /\ (65 <= N_of_ascii a <= 90)%N.
Proof.
  induction s as [|a s IH]; cbn.
  - split; [discriminate|]. intros (a & [] & _).
  - rewrite orb_true_iff, IH. unfold PyStr.in_A_Z.
    rewrite andb_true_iff, !N.leb_le. split.
    + intros [Ha|(b & Hb & Hr)]; [exists a|exists b]; auto.
    + intros (b & [<-|Hb] & Hr); [left|right; exists b]; auto.
Qed.

(** [len] counts the bytes that start a character: all but 80..BF *)
Lemma len_lead_bytes (p : string) :
  PyStr.len p
  = length (List.filter (fun a => negb ((128 <=? N_of_ascii a)%N && (N_of_ascii a <=? 191)%N))
                        (list_ascii_of_string p)).
Proof.
  induction p as [|a p IH]; [reflexivity|]. cbn [PyStr.len list_ascii_of_string List.filter].
  unfold PyStr.is_continuation.
  replace (N_of_ascii a <? 192)%N with (N_of_ascii a <=? 191)%N
    by (destruct (N.leb_spec (N_of_ascii a) 191), (N.ltb_spec (N_of_ascii a) 192);
        try reflexivity; lia).
  destruct (_ && _); cbn [negb length]; now rewrite IH.
Qed.

Lemma len_ascii (p : string) :
  Forall (fun a => (N_of_ascii a < 128)%N) (list_ascii_of_string p) ->
  PyStr.len p = String.length p.
Proof.
  induction p as [|a p IH]; [reflexivity|]. cbn [PyStr.len list_ascii_of_string String.length].
  intros H. apply Forall_cons_1 in H as [Ha Hp]. rewrite (IH Hp).
  unfold PyStr.is_continuation. destruct (N.leb_spec 128 (N_of_ascii a)); [lia|reflexivity].
Qed.

(** a letter of [A-Z] is an uppercase letter *)
Lemma search_A_Z_uppercase (p : string) :
  PyStr.search_A_Z p = true -> has_uppercase_letter p = true.
Proof.
  induction p as [|a p IH]; [discriminate|]. cbn [PyStr.search_A_Z has_uppercase_letter].
  intros [->|Hp]%orb_true_iff; [reflexivity|]. rewrite (IH Hp). now rewrite orb_true_r.
Qed.

(** C4, as stated, fails: a password of 8 characters, each an uppercase
    letter outside ASCII, is refused with the message of the uppercase
    rule, because the pattern of the source is [A-Z]. *)
Lemma validate_rejects_other_uppercase :
  let p := "ÉÉÉÉÉÉÉÉ" in
  PyStr.len p = 8%nat
  /\ has_uppercase_letter p = true
  /\ validate_password p = msg_no_upper
  /\ validate_password p <> "".
Proof. cbv zeta. repeat split. discriminate. Qed.

(** C4, amended. [validate_password] returns the empty string exactly for
    the passwords of at least 8 characters that contain one of the letters
    A to Z of ASCII (the pattern [A-Z]); a password that is too short gets
    the length message whether or not it has such a letter, so the length
    is checked first.  The length is the number of characters: of the bytes
    of the UTF-8 text, those that start a character; for an ASCII password
    it is the number of bytes.  Every accepted password contains an
    uppercase letter; the converse fails for the uppercase letters outside
    A to Z. *)
Theorem validate_password_spec (p : string) :
  (validate_password p = "" <->
     (8 <= PyStr.len p)%nat
     /\ exists a, In a (list_ascii_of_string p) /\ (65 <= N_of_ascii a <= 90)%N)
  /\ ((PyStr.len p < 8)%nat -> validate_password p = msg_too_short)
  /\ ((8 <= PyStr.len p)%nat -> PyStr.search_A_Z p = false ->
      validate_password p = msg_no_upper)
  /\ PyStr.len p
     = length (List.filter
                 (fun a => negb ((128 <=? N_of_ascii a)%N && (N_of_ascii a <=? 191)%N))
                 (list_ascii_of_string p))
  /\ (Forall (fun a => (N_of_ascii a < 128)%N) (list_ascii_of_string p) ->
      (validate_password p = "" <->
         (8 <= String.length p)%nat
         /\ exists a, In a (list_ascii_of_string p) /\ (65 <= N_of_ascii a <= 90)%N))
  /\ (validate_password p = "" -> has_uppercase_letter p = true).
Proof.
  assert (Hiff : validate_password p = "" <->
                 (8 <= PyStr.len p)%nat /\ PyStr.search_A_Z p = true).
  { unfold validate_password.
    destruct (Nat.ltb_spec (PyStr.len p) 8) as [Hlt|Hge].
    - split; [discriminate|]. intros [? _]. lia.
    - destruct (PyStr.search_A_Z p); cbn; split; try discriminate; auto.
      intros [_ ?]. discriminate. }
  split; [now rewrite <- search_A_Z_spec|].
  split; [|split; [|split; [apply len_lead_bytes|split]]].
  - intros Hlt. unfold validate_password.
    destruct (Nat.ltb_spec (PyStr.len p) 8); [reflexivity|lia].
  - intros Hge Hno. unfold validate_password. rewrite Hno.
    destruct (Nat.ltb_spec (PyStr.len p) 8); [lia|reflexivity].
  - intros Hascii. rewrite <- (len_ascii p Hascii), <- search_A_Z_spec. exact Hiff.
  - intros Hok. apply search_A_Z_uppercase. now apply Hiff.
Qed.

Lemma validate_password_spec_witness :
  validate_password "short" = msg_too_short.
Proof.
  apply (proj1 (proj2 (validate_password_spec "short"))). vm_compute. lia.
Defined.

(** ** Registration and login *)

Lemma truthy_empty (s : string) : PyStr.truthy s = false <-> s = "".
Proof. destruct s; cbn; split; congruence. Qed.

Lemma msg_duplicate_not_validation (p : string) : validate_password p <> msg_duplicate.
Proof.
  unfold validate_password.
  destruct (_ <? _)%nat; [discriminate|]. destruct (negb _); discriminate.
Qed.

(** what [register_user] does, by cases on the password and the username *)
Lemma register_user_cases (db : DB) (username password : string) :
  register_user db username password =
    if PyStr.truthy (validate_password password)
    then Ok (db, (false, validate_password password))
    else if username_exists db username
    then Ok (db, (false, msg_duplicate))
    else Ok (mkDB (users db ++ [mkUser (next_id (map u_id (users db))) username
                                       (hash_password password)])
                  (entries db) (budgets db),
             (true, msg_created)).
Proof.
  unfold register_user, insert_user, username_exists.
  destruct (PyStr.truthy _); [reflexivity|].
  destruct (existsb _ _); reflexivity.
Qed.

(** C3, as stated, fails in both directions: a new username with a
    password that the policy rejects is not stored, and an existing
    username with such a password gets the policy message, not the
    duplicate one. *)
Lemma register_requires_valid_password :
  let db := mkDB [mkUser 1 "alice" (hash_password "Password1")] [] [] in
  (username_exists empty_db "alice" = false
   /\ register_user empty_db "alice" "short" = Ok (empty_db, (false, msg_too_short)))
  /\ (username_exists db "alice" = true
      /\ register_user db "alice" "short" = Ok (db, (false, msg_too_short))
      /\ msg_too_short <> msg_duplicate).
Proof. cbv zeta. repeat split. discriminate. Qed.

(** C3, amended. A password that the policy rejects fails with the
    policy message and stores nothing.  For a password that passes,
    registration fails with the duplicate message if and only if the
    username is already stored, and otherwise appends one user row holding
    the SHA-256 hex digest of the password and succeeds. *)
Theorem register_user_spec (db : DB) (username password : string) :
  (validate_password password <> "" ->
     register_user db username password = Ok (db, (false, validate_password password)))
  /\ (validate_password password = "" ->
      (username_exists db username = true ->
         register_user db username password = Ok (db, (false, msg_duplicate)))
      /\ (username_exists db username = false ->
         register_user db username password
         = Ok (mkDB (users db ++ [mkUser (next_id (map u_id (users db))) username
                                         (hash_password password)])
                    (entries db) (budgets db),
               (true, msg_created)))
      /\ ((exists db', register_user db username password = Ok (db', (false, msg_duplicate)))
          <-> username_exists db username = true)).
Proof.
  rewrite register_user_cases. split.
  - intros Hbad. destruct (PyStr.truthy _) eqn:Ht; [reflexivity|].
    apply truthy_empty in Ht. contradiction.
  - intros Hok. rewrite (proj2 (truthy_empty _) Hok).
    destruct (username_exists db username); repeat split; try discriminate; eauto.
    intros (db' & Hdb'). discriminate.
Qed.

Lemma register_user_spec_witness :
  register_user empty_db "alice" "Password1"
  = Ok (mkDB [mkUser 1 "alice"
                "19513fdc9da4fb72a4a05eb66917548d3c90ff94d5419e1f2363eea89dfee1dd"] [] [],
        (true, msg_created)).
Proof.
  refine (proj1 (proj2 (proj2 (register_user_spec empty_db "alice" "Password1") _)) _);
    vm_compute; reflexivity.
Defined.

Lemma find_app_none {A : Type} (f : A -> bool) (l1 l2 : list A) :
  existsb f l1 = false -> find f (l1 ++ l2) = find f l2.
Proof.
  induction l1 as [|a l1 IH]; cbn; [reflexivity|].
  destruct (f a); [discriminate|exact IH].
Qed.

Lemma username_exists_added (db : DB) (u : User) :
  username_exists (mkDB (users db ++ [u]) (entries db) (budgets db)) (u_username u) = true.
Proof.
  unfold username_exists. cbn. rewrite existsb_app. cbn.
  rewrite String.eqb_refl. now rewrite orb_true_r.
Qed.

(** a successful registration is the third case of [register_user_cases] *)
Lemma register_user_success (db db' : DB) (username password msg : string) :
  register_user db username password = Ok (db', (true, msg)) ->
  validate_password password = ""
  /\ username_exists db username = false
  /\ db' = mkDB (users db ++ [mkUser (next_id (map u_id (users db))) username
                                     (hash_password password)])
                (entries db) (budgets db).
Proof.
  rewrite register_user_cases.
  destruct (PyStr.truthy _) eqn:Ht; [discriminate|].
  destruct (username_exists db username); [discriminate|].
  intros [= <- _]. apply truthy_empty in Ht. auto.
Qed.

(** C9, as stated, fails: after a successful registration a second one
    with the same username and a password that the policy rejects fails
    with the policy message, not the duplicate one. *)
Lemma second_register_policy_message :
  let db := mkDB [mkUser 1 "alice" (hash_password "Password1")] [] [] in
  register_user empty_db "alice" "Password1" = Ok (db, (true, msg_created))
  /\ register_user db "alice" "short" = Ok (db, (false, msg_too_short))
  /\ msg_too_short <> msg_duplicate.
Proof. cbv zeta. repeat split. discriminate. Qed.

(** C9, amended. After [register_user] succeeds, every second
    registration with the same username fails and leaves the store as it
    is: with the duplicate message when its password passes the policy (the
    original password does), with the policy message otherwise; and
    [login_user] with the original password returns the stored row, whose
    password column is the hash of that password. *)
Theorem register_then_login (db db' : DB) (username password msg : string) :
  register_user db username password = Ok (db', (true, msg)) ->
  (forall password2,
      register_user db' username password2
      = Ok (db', (false, if PyStr.truthy (validate_password password2)
                         then validate_password password2 else msg_duplicate)))
  /\ register_user db' username password = Ok (db', (false, msg_duplicate))
  /\ (exists user,
        login_user db' username password = Some user
        /\ In user (users db')
        /\ u_username user = username
        /\ u_password user = hash_password password).
Proof.
  intros Hreg. apply register_user_success in Hreg as (Hvalid & Hnew & ->).
  pose proof (username_exists_added db
                (mkUser (next_id (map u_id (users db))) username (hash_password password)))
    as Hadded. cbn [u_username] in Hadded.
  repeat split.
  - intros password2. rewrite register_user_cases, Hadded.
    now destruct (PyStr.truthy _).
  - rewrite register_user_cases, Hadded, (proj2 (truthy_empty _) Hvalid). reflexivity.
  - eexists. unfold login_user. cbn [users].
    rewrite (find_app_none _ _ _ ).
    + cbn. rewrite !String.eqb_refl. cbn. repeat split.
      apply in_app_iff. right. now left.
    + unfold username_exists in Hnew. clear Hadded.
      induction (users db) as [|u us IH]; cbn in *; [reflexivity|].
      apply orb_false_iff in Hnew as [-> Hus]. cbn. auto.
Qed.

Lemma register_then_login_witness :
  let db := mkDB [mkUser 1 "alice" (hash_password "Password1")] [] [] in
  register_user db "alice" "Password1" = Ok (db, (false, msg_duplicate))
  /\ login_user db "alice" "Password1"
     = Some (mkUser 1 "alice"
               "19513fdc9da4fb72a4a05eb66917548d3c90ff94d5419e1f2363eea89dfee1dd").
Proof.
  cbv zeta.
  destruct (register_then_login empty_db
              (mkDB [mkUser 1 "alice" (hash_password "Password1")] [] [])
              "alice" "Password1" msg_created) as (_ & Hdup & _).
  - vm_compute. reflexivity.
  - split; [exact Hdup|]. vm_compute. reflexivity.
Defined.

(** ** Budget store: upsert *)

Section Upsert.
Variables (user_id : Z) (category : string) (month year : Z).

Let matches : Budget -> bool := budget_key_matches user_id category month year.

Lemma budget_key_matches_iff (b : Budget) :
  matches b = true <-> budget_key b = (user_id, category, month, year).
Proof.
  unfold matches, budget_key_matches, budget_key.
  rewrite !andb_true_iff, !Z.eqb_eq, String.eqb_eq.
  split; [intros [[[-> ->] ->] ->]; reflexivity | intros [= -> -> -> ->]; auto].
Qed.

Lemma budget_key_update (amount : float) (b : Budget) :
  budget_key (if matches b then update_amount amount b else b) = budget_key b.
Proof. now destruct (matches b). Qed.

Lemma matches_update (amount : float) (b : Budget) :
  matches (if matches b then update_amount amount b else b) = matches b.
Proof. now destruct (matches b) eqn:Hb. Qed.

(** the keys of the table after [set_budget]: unchanged by the UPDATE, one
    more key after the INSERT *)
Lemma set_budget_keys (db : DB) (amount : float) :
  map budget_key (budgets (set_budget db user_id category amount month year))
  = if existsb matches (budgets db) then map budget_key (budgets db)
    else (map budget_key (budgets db) ++ [(user_id, category, month, year)])%list.
Proof.
  unfold set_budget. fold matches.
  destruct (existsb matches (budgets db)); cbn [budgets].
  - rewrite map_map. apply map_ext. intros b. apply budget_key_update.
  - now rewrite map_app.
Qed.

Lemma set_budget_unique (db : DB) (amount : float) :
  unique_keys (budgets db) ->
  unique_keys (budgets (set_budget db user_id category amount month year)).
Proof.
  unfold unique_keys. intros Huniq. rewrite set_budget_keys.
  destruct (existsb matches (budgets db)) eqn:Hex; [exact Huniq|].
  apply List.NoDup_app; [exact Huniq | repeat constructor; intros [] |].
  intros k Hk [<-|[]].
  apply in_map_iff in Hk as (b & Hb & Hin).
  apply budget_key_matches_iff in Hb.
  assert (existsb matches (budgets db) = true) by (apply existsb_exists; eauto).
  congruence.
Qed.

(** under the invariant a key that is present selects one row *)
Lemma unique_key_one_row (bs : list Budget) :
  unique_keys bs -> existsb matches bs = true ->
  exists b, List.filter matches bs = [b].
Proof.
  unfold unique_keys. induction bs as [|b bs IH]; cbn; [discriminate|].
  intros Huniq Hex. apply List.NoDup_cons_iff in Huniq as [Hnotin Huniq].
  destruct (matches b) eqn:Hb.
  - exists b. f_equal. apply filter_nil_existsb.
    destruct (existsb matches bs) eqn:Hbs; [|reflexivity].
    apply existsb_exists in Hbs as (b' & Hin & Hb').
    exfalso. apply Hnotin. apply in_map_iff. exists b'. split; [|exact Hin].
    apply budget_key_matches_iff in Hb, Hb'. congruence.
  - cbn in Hex. apply IH; assumption.
Qed.

(** after [set_budget] the key selects exactly one row, with the new amount *)
Lemma set_budget_one_row (db : DB) (amount : float) :
  unique_keys (budgets db) ->
  exists row,
    List.filter matches (budgets (set_budget db user_id category amount month year)) = [row]
    /\ b_amount row = amount.
Proof.
  intros Huniq. unfold set_budget. fold matches.
  destruct (existsb matches (budgets db)) eqn:Hex; cbn [budgets].
  - destruct (unique_key_one_row _ Huniq Hex) as (b & Hb).
    exists (update_amount amount b). split; [|reflexivity].
    assert (Hin : matches b = true).
    { assert (In b (List.filter matches (budgets db))) as Hin by (rewrite Hb; now left).
      now apply filter_In in Hin. }
    rewrite filter_map_swap.
    rewrite (filter_ext _ matches) by (intros a; apply matches_update).
    rewrite Hb. cbn. now rewrite Hin.
  - eexists. rewrite List.filter_app. apply filter_nil_existsb in Hex. rewrite Hex. cbn.
    unfold matches, budget_key_matches. cbn. rewrite !Z.eqb_refl, String.eqb_refl. cbn.
    split; reflexivity.
Qed.

(** [get_budgets] followed by the selection of the category is the
    selection of the key *)
Lemma get_budgets_category (db : DB) :
  List.filter (fun b => String.eqb (b_category b) category)
              (get_budgets db user_id year month)
  = List.filter matches (budgets db).
Proof.
  unfold get_budgets. induction (budgets db) as [|b bs IH]; cbn; [reflexivity|].
  unfold matches, budget_key_matches in *.
  destruct (b_user_id b =? user_id)%Z, (b_year b =? year)%Z, (b_month b =? month)%Z;
    cbn; rewrite ?IH; try reflexivity;
    destruct (String.eqb (b_category b) category); cbn; rewrite ?IH; reflexivity.
Qed.

End Upsert.

Lemma set_budgets_unique (calls : list budget_call) (db : DB) :
  unique_keys (budgets db) -> unique_keys (budgets (set_budgets db calls)).
Proof.
  revert db. induction calls as [|[[[[u c] a] m] y] calls IH]; intros db Huniq; cbn.
  - exact Huniq.
  - apply IH. now apply set_budget_unique.
Qed.

(** C2. Starting from a table with at most one row per (user_id, category,
    month, year), every sequence of [set_budget] calls leaves at most one
    row per key, and after two calls with the same key [get_budgets]
    returns exactly one row of that category, with the amount of the second
    call. *)
Theorem set_budget_upsert (db : DB) :
  unique_keys (budgets db) ->
  (forall calls : list budget_call, unique_keys (budgets (set_budgets db calls)))
  /\ (forall (user_id : Z) (category : string) (amount1 amount2 : float) (month year : Z),
        exists row,
          List.filter (fun b => String.eqb (b_category b) category)
            (get_budgets
               (set_budget (set_budget db user_id category amount1 month year)
                           user_id category amount2 month year)
               user_id year month)
          = [row]
          /\ b_amount row = amount2).
Proof.
  intros Huniq. split.
  - intros calls. now apply set_budgets_unique.
  - intros user_id category amount1 amount2 month year.
    rewrite get_budgets_category. apply set_budget_one_row.
    now apply set_budget_unique.
Qed.

Lemma set_budget_upsert_witness :
  exists row,
    List.filter (fun b => String.eqb (b_category b) "Food")
      (get_budgets (set_budget (set_budget scenario_db 1 "Food" 1200 6 2024)
                               1 "Food" 1500 6 2024) 1 2024 6)
    = [row]
    /\ b_amount row = 1500%float.
Proof.
  apply (proj2 (set_budget_upsert scenario_db
                  (List.NoDup_cons _ (fun H : In _ [] => H) (List.NoDup_nil _)))).
Defined.

(** ** Aggregation: spend by category *)

Section GroupBy.
Local Open Scope float_scope.

Lemma groupby_state_snoc (rows : list Entry) (e : Entry) :
  groupby_state (rows ++ [e])
  = <[e_category e :=
        kahan_step (default (0, 0) (groupby_state rows !! e_category e)) (e_amount e)]>
      (groupby_state rows).
Proof. unfold groupby_state. now rewrite fold_left_app. Qed.

(** the state of a category is the state of the compensated sum over its
    rows alone *)
Lemma groupby_state_lookup (rows : list Entry) (category : string) :
  groupby_state rows !! category =
    match List.filter (fun e => String.eqb (e_category e) category) rows with
    | [] => None
    | group => Some (fold_left kahan_step (map e_amount group) (0, 0))
    end.
Proof.
  induction rows as [|e rows IH] using rev_ind; [reflexivity|].
  rewrite groupby_state_snoc, List.filter_app. cbn [List.filter].
  destruct (String.eqb_spec (e_category e) category) as [->|Hne].
  - rewrite lookup_insert_eq, IH.
    destruct (List.filter _ rows) as [|e' group]; cbn [app default].
    + reflexivity.
    + change (e' :: group ++ [e])%list with ((e' :: group) ++ [e])%list.
      now rewrite map_app, fold_left_app.
  - rewrite lookup_insert_ne by exact Hne. now rewrite app_nil_r.
Qed.

(** a category is a key exactly when one of the rows has it, and its value
    is the compensated sum of the amounts of those rows, in row order *)
Lemma groupby_sum_lookup (rows : list Entry) (category : string) :
  groupby_sum rows !! category =
    match List.filter (fun e => String.eqb (e_category e) category) rows with
    | [] => None
    | group => Some (sum_amounts group)
    end.
Proof.
  unfold groupby_sum. rewrite lookup_fmap, groupby_state_lookup.
  now destruct (List.filter _ rows).
Qed.

End GroupBy.

Lemma filter_filter_andb {A : Type} (f g : A -> bool) (l : list A) :
  List.filter f (List.filter g l) = List.filter (fun a => g a && f a) l.
Proof.
  induction l as [|a l IH]; cbn; [reflexivity|].
  destruct (g a); cbn; [destruct (f a)|]; now rewrite IH.
Qed.

(** For a user with at least one entry, in a store of numbers, the
    mapping is computed: a category is a key exactly when the user has an
    expense of that category in the month, and its value is the compensated
    sum (the sum as pandas adds it up) of the amounts of these entries, in
    row order.  Income entries and entries of other users, months or years
    are not among the rows that are added up. *)
Lemma spend_by_category_sums (db : DB) (user_id year month : Z) :
  numbers_only db = true ->
  has_entries db user_id = true ->
  exists spent,
    spend_by_category db user_id year month = Ok spent
    /\ forall category,
        spent !! category =
          match matching_expenses db user_id year month category with
          | [] => None
          | group => Some (sum_amounts group)
          end.
Proof.
  intros _ Hsome. exists (spent_of db user_id year month).
  rewrite spend_by_category_has_entries, Hsome. split; [reflexivity|].
  intros category. unfold spent_of, matching_expenses.
  rewrite groupby_sum_lookup, !filter_filter_andb.
  erewrite filter_ext; [reflexivity|].
  intros e. cbn. now rewrite !andb_assoc.
Qed.

Lemma spend_by_category_sums_example :
  exists spent,
    spend_by_category scenario_db 1 2024 6 = Ok spent
    /\ spent !! "Food" = Some 750%float
    /\ spent !! "Salary" = None.
Proof.
  destruct (spend_by_category_sums scenario_db 1 2024 6 eq_refl eq_refl)
    as (spent & Hs & Hl).
  exists spent. rewrite !Hl. split; [exact Hs|].
  split; vm_compute; reflexivity.
Defined.

(** C5, at the failing input: for a user who has a budget and no entry,
    lines 108-111 raise instead of giving the empty mapping. *)
Theorem spend_by_category_no_entries :
  has_entries budget_only_db 1 = false
  /\ spend_by_category budget_only_db 1 2024 6 = Raise AttributeError.
Proof. split; reflexivity. Qed.

(** * Further properties of the credential store *)

(** ** The digest as it is stored *)

Section HexDigest.
Local Open Scope N_scope.

Lemma hex_digit_lower (n : N) : n < 16 -> is_lower_hex (SHA256.hex_digit n) = true.
Proof.
  intros Hn. unfold is_lower_hex, SHA256.hex_digit.
  destruct (N.ltb_spec n 10) as [Hlt|Hge];
    rewrite N_ascii_embedding by lia;
    rewrite orb_true_iff, !andb_true_iff, !N.leb_le; lia.
Qed.

Lemma hex_of_bytes_length (bs : list N) :
  String.length (SHA256.hex_of_bytes bs) = (2 * length bs)%nat.
Proof.
  unfold SHA256.hex_of_bytes. induction bs as [|b bs IH]; [reflexivity|].
  cbn [fold_right String.length length]. rewrite IH. lia.
Qed.

Lemma hex_of_bytes_lower (bs : list N) :
  Forall (fun b => b < 256) bs ->
  Forall (fun a => is_lower_hex a = true)
         (list_ascii_of_string (SHA256.hex_of_bytes bs)).
Proof.
  unfold SHA256.hex_of_bytes.
  induction 1 as [|b bs Hb _ IH]; cbn [fold_right list_ascii_of_string]; [constructor|].
  repeat constructor; [| |exact IH]; apply hex_digit_lower.
  - rewrite N.shiftr_div_pow2. change (2 ^ 4) with 16.
    apply N.Div0.div_lt_upper_bound. lia.
  - change 0xf with (N.ones 4). rewrite N.land_ones. apply N.mod_lt. discriminate.
Qed.

Lemma be_bytes_spec (n : nat) (x : N) :
  length (SHA256.be_bytes n x) = n /\ Forall (fun b => b < 256) (SHA256.be_bytes n x).
Proof.
  induction n as [|n [IHl IHf]]; cbn [SHA256.be_bytes]; [split; [reflexivity|constructor]|].
  split; [cbn; now rewrite IHl|]. constructor; [|exact IHf].
  change 0xff with (N.ones 8). rewrite N.land_ones. apply N.mod_lt. discriminate.
Qed.

Lemma digest_spec (msg : list N) :
  length (SHA256.digest msg) = 32%nat /\ Forall (fun b => b < 256) (SHA256.digest msg).
Proof.
  unfold SHA256.digest.
  destruct (fold_left _ _ _) as [[[[[[[a b] c] d] e] f] g] h].
  cbn [flat_map]. rewrite !length_app, !Forall_app.
  rewrite !(proj1 (be_bytes_spec 4 _)).
  split; [reflexivity|]. repeat split; try apply be_bytes_spec. constructor.
Qed.

End HexDigest.

(** a string of lowercase hexadecimal digits has no letter of [A-Z] *)
Lemma lower_hex_no_A_Z (s : string) :
  Forall (fun a => is_lower_hex a = true) (list_ascii_of_string s) ->
  PyStr.search_A_Z s = false.
Proof.
  induction s as [|a s IH]; cbn; [reflexivity|].
  intros H. apply Forall_cons_1 in H as [Ha Hs]. rewrite (IH Hs), orb_false_r.
  unfold is_lower_hex in Ha. unfold PyStr.in_A_Z.
  apply orb_true_iff in Ha. rewrite !andb_true_iff, !N.leb_le in Ha.
  apply andb_false_iff. rewrite !N.leb_gt. lia.
Qed.

Lemma hash_password_format_aux (password : string) :
  String.length (hash_password password) = 64%nat
  /\ Forall (fun a => is_lower_hex a = true)
            (list_ascii_of_string (hash_password password)).
Proof.
  unfold hash_password, SHA256.hexdigest.
  destruct (digest_spec (SHA256.bytes_of_string password)) as [Hlen Hbytes].
  split; [now rewrite hex_of_bytes_length, Hlen | now apply hex_of_bytes_lower].
Qed.

(** What is stored in the [password] column is a string of 64 lowercase
    hexadecimal digits, whatever the password; it has no letter of [A-Z],
    so it never passes the password policy itself. *)
Theorem hash_password_format (password : string) :
  String.length (hash_password password) = 64%nat
  /\ Forall (fun a => is_lower_hex a = true)
            (list_ascii_of_string (hash_password password))
  /\ validate_password (hash_password password) = msg_no_upper.
Proof.
  destruct (hash_password_format_aux password) as [Hlen Hhex].
  repeat split; [exact Hlen|exact Hhex|].
  unfold validate_password.
  rewrite (lower_hex_no_A_Z _ Hhex).
  destruct (Nat.ltb_spec (PyStr.len (hash_password password)) 8) as [Hlt|_]; [|reflexivity].
  exfalso. revert Hlt.
  assert (Hl : PyStr.len (hash_password password) = String.length (hash_password password)).
  { clear Hlen. induction (hash_password password) as [|a s IH]; cbn; [reflexivity|].
    apply Forall_cons_1 in Hhex as [Ha Hs]. rewrite (IH Hs).
    unfold PyStr.is_continuation. unfold is_lower_hex in Ha.
    apply orb_true_iff in Ha. rewrite !andb_true_iff, !N.leb_le in Ha.
    destruct (N.leb_spec 128 (N_of_ascii a)); [lia|reflexivity]. }
  rewrite Hl, Hlen. lia.
Qed.

(** a password that passes the policy is not its own digest *)
Lemma valid_password_not_its_hash (password : string) :
  validate_password password = "" -> hash_password password <> password.
Proof.
  intros Hvalid Heq.
  pose proof (lower_hex_no_A_Z _ (proj2 (hash_password_format_aux password))) as Hno.
  rewrite Heq in Hno. unfold validate_password in Hvalid. rewrite Hno in Hvalid.
  now destruct (_ <? _)%nat.
Qed.

(** ** Registration and login, continued *)

Lemma next_id_fresh (ids : list Z) (id : Z) : In id ids -> id < next_id ids.
Proof.
  unfold next_id. induction ids as [|i ids IH]; cbn; [intros []|].
  intros [<-|Hin]; [lia|]. specialize (IH Hin). lia.
Qed.

Lemma next_id_not_in (ids : list Z) : ~ In (next_id ids) ids.
Proof. intros Hin. apply next_id_fresh in Hin. lia. Qed.

Lemma NoDup_snoc {A : Type} (l : list A) (x : A) :
  List.NoDup l -> ~ In x l -> List.NoDup (l ++ [x]).
Proof.
  intros Hl Hx. apply List.NoDup_app; [exact Hl | repeat constructor; intros [] |].
  intros a Ha [<-|[]]. contradiction.
Qed.

Lemma username_exists_In (db : DB) (username : string) :
  username_exists db username = false <->
  forall user, In user (users db) -> u_username user <> username.
Proof.
  unfold username_exists. induction (users db) as [|u us IH]; cbn.
  - split; [intros _ user []|reflexivity].
  - rewrite orb_false_iff, IH, String.eqb_neq. split.
    + intros [Hu Hus] user [<-|Hin]; auto.
    + intros H. split; [|intros user Hin]; apply H; auto.
Qed.

Lemma find_app {A : Type} (f : A -> bool) (l1 l2 : list A) :
  find f (l1 ++ l2) = match find f l1 with Some a => Some a | None => find f l2 end.
Proof. induction l1 as [|a l1 IH]; cbn; [reflexivity|]. now destruct (f a). Qed.

(** A successful registration appends one row to [users], with the
    username and the digest of the password; the digest differs from the
    password itself, so the plain password is not what is stored. *)
Theorem register_user_stores_digest (db db' : DB) (username password msg : string) :
  register_user db username password = Ok (db', (true, msg)) ->
  exists row,
    users db' = (users db ++ [row])%list
    /\ u_username row = username
    /\ u_password row = hash_password password
    /\ u_password row <> password
    /\ msg = msg_created.
Proof.
  intros Hreg. pose proof Hreg as Hmsg.
  apply register_user_success in Hreg as (Hvalid & _ & ->).
  rewrite register_user_cases in Hmsg.
  destruct (PyStr.truthy _); [discriminate|].
  destruct (username_exists db username); [discriminate|].
  injection Hmsg as <-.
  eexists. cbn. repeat split. now apply valid_password_not_its_hash.
Qed.

Lemma register_user_stores_digest_witness :
  exists row,
    [mkUser 1 "alice" (hash_password "Password1")] = ([] ++ [row])%list
    /\ u_username row = "alice"
    /\ u_password row = hash_password "Password1"
    /\ u_password row <> "Password1"
    /\ msg_created = msg_created.
Proof.
  apply (register_user_stores_digest empty_db
           (mkDB [mkUser 1 "alice" (hash_password "Password1")] [] [])
           "alice" "Password1" msg_created).
  vm_compute. reflexivity.
Defined.

(** [register_user] never lets an exception out.  It leaves the entries
    and the budgets alone, changes nothing at all when it reports a
    failure, and keeps the usernames and the ids of the users distinct. *)
Theorem register_user_preserves (db : DB) (username password : string) :
  exists (db' : DB) (ok : bool) (message : string),
    register_user db username password = Ok (db', (ok, message))
    /\ entries db' = entries db
    /\ budgets db' = budgets db
    /\ (ok = false -> db' = db)
    /\ (usernames_unique db -> usernames_unique db')
    /\ (List.NoDup (map u_id (users db)) -> List.NoDup (map u_id (users db'))).
Proof.
  rewrite register_user_cases.
  destruct (PyStr.truthy _); [do 3 eexists; repeat split; auto|].
  destruct (username_exists db username) eqn:Hex; [do 3 eexists; repeat split; auto|].
  do 3 eexists. split; [reflexivity|]. cbn [entries budgets users].
  repeat split; try discriminate.
  - unfold usernames_unique. cbn [users]. rewrite map_app. intros Huniq.
    apply NoDup_snoc; [exact Huniq|]. cbn.
    intros Hin. apply in_map_iff in Hin as (u & Hu & Hin).
    exact (proj1 (username_exists_In db username) Hex u Hin Hu).
  - rewrite map_app. intros Huniq. apply NoDup_snoc; [exact Huniq|].
    apply next_id_not_in.
Qed.

(** [login_user] returns a row only if that row is stored under the given
    username with the digest of the given password, and returns nothing
    exactly when no stored row has both. *)
Theorem login_user_sound_complete (db : DB) (username password : string) :
  (forall user,
      login_user db username password = Some user ->
      In user (users db)
      /\ u_username user = username
      /\ u_password user = hash_password password)
  /\ (login_user db username password = None <->
      forall user,
        In user (users db) -> u_username user = username ->
        u_password user <> hash_password password).
Proof.
  unfold login_user. split.
  - intros user Hfind. apply find_some in Hfind as [Hin Hb].
    apply andb_true_iff in Hb as [Hu Hp].
    apply String.eqb_eq in Hu, Hp. auto.
  - split.
    + intros Hnone user Hin Hu Hp.
      pose proof (find_none _ _ Hnone user Hin) as Hb. cbn in Hb.
      rewrite Hu, Hp, !String.eqb_refl in Hb. discriminate.
    + intros Hno. induction (users db) as [|u us IH]; [reflexivity|].
      cbn. destruct (String.eqb_spec (u_username u) username) as [Hu|Hu]; cbn.
      * destruct (String.eqb_spec (u_password u) (hash_password password)) as [Hp|Hp].
        -- exfalso. apply (Hno u); auto. now left.
        -- apply IH. intros user Hin. apply Hno. now right.
      * apply IH. intros user Hin. apply Hno. now right.
Qed.

(** A registration, successful or not, does not change what [login_user]
    returns for any other username. *)
Theorem register_keeps_other_logins
    (db db' : DB) (username password : string) (r : bool * string)
    (other other_password : string) :
  register_user db username password = Ok (db', r) ->
  other <> username ->
  login_user db' other other_password = login_user db other other_password.
Proof.
  rewrite register_user_cases. intros Hreg Hother.
  destruct (PyStr.truthy _); [now injection Hreg as <- _|].
  destruct (username_exists db username); [now injection Hreg as <- _|].
  injection Hreg as <- _. unfold login_user. cbn [users].
  rewrite find_app. destruct (find _ (users db)); [reflexivity|].
  cbn. apply String.eqb_neq in Hother. rewrite String.eqb_sym in Hother.
  now rewrite Hother.
Qed.

Lemma register_keeps_other_logins_witness :
  let db := mkDB [mkUser 1 "alice" (hash_password "Password1")] [] [] in
  let db' := mkDB [mkUser 1 "alice" (hash_password "Password1");
                   mkUser 2 "bob" (hash_password "Secret123")] [] [] in
  login_user db' "alice" "Password1" = login_user db "alice" "Password1".
Proof.
  cbv zeta.
  apply (register_keeps_other_logins _ _ "bob" "Secret123" (true, msg_created)).
  - vm_compute. reflexivity.
  - discriminate.
Defined.

(** After a successful registration, a password with another digest does
    not log in under that username. *)
Theorem login_rejects_other_password
    (db db' : DB) (username password msg other_password : string) :
  register_user db username password = Ok (db', (true, msg)) ->
  hash_password other_password <> hash_password password ->
  login_user db' username other_password = None.
Proof.
  intros Hreg Hhash. apply register_user_success in Hreg as (_ & Hnew & ->).
  unfold login_user. cbn [users]. rewrite find_app.
  assert (Hnone : find (fun u => String.eqb (u_username u) username
                                 && String.eqb (u_password u) (hash_password other_password))
                       (users db) = None).
  { pose proof (proj1 (username_exists_In db username) Hnew) as Hno.
    induction (users db) as [|u us IH]; [reflexivity|]. cbn.
    destruct (String.eqb_spec (u_username u) username) as [Hu|_]; cbn.
    - exfalso. apply (Hno u); [now left|exact Hu].
    - apply IH. intros user Hin. apply Hno. now right. }
  rewrite Hnone. cbn. rewrite String.eqb_refl. cbn.
  apply not_eq_sym, String.eqb_neq in Hhash. now rewrite Hhash.
Qed.

Lemma login_rejects_other_password_witness :
  login_user (mkDB [mkUser 1 "alice" (hash_password "Password1")] [] [])
             "alice" "Password2" = None.
Proof.
  apply (login_rejects_other_password empty_db _ "alice" "Password1" msg_created).
  - vm_compute. reflexivity.
  - vm_compute. discriminate.
Defined.

(** * Further properties of the ledger and of the budget store *)

(** [add_entry] appends: the frame of the user gains the new entry as its
    last row and has a datetime [date] column; the frames of the other
    users, the users and the budgets are as before. *)
Theorem add_entry_frame (db : DB) (user_id : Z) (etype category : string)
    (amount : float) (date : Date) :
  let db' := add_entry db user_id etype category amount date in
  get_entries_df db' user_id
  = mkFrame (f_rows (get_entries_df db user_id)
             ++ [mkEntry (next_id (map e_id (entries db))) user_id etype category amount date])
            Datetime64
  /\ (forall other, other <> user_id ->
        get_entries_df db' other = get_entries_df db other)
  /\ users db' = users db
  /\ budgets db' = budgets db.
Proof.
  cbv zeta. unfold get_entries_df, add_entry. cbn [entries users budgets].
  rewrite !List.filter_app. cbn [List.filter e_user_id]. rewrite Z.eqb_refl.
  repeat split.
  - assert (Hrows : f_rows (match List.filter (fun e => (e_user_id e =? user_id)%Z) (entries db)
                            with
                            | [] => mkFrame (List.filter (fun e => (e_user_id e =? user_id)%Z)
                                                         (entries db)) ObjectDtype
                            | _ :: _ => mkFrame (List.filter (fun e => (e_user_id e =? user_id)%Z)
                                                             (entries db)) Datetime64
                            end)
                    = List.filter (fun e => (e_user_id e =? user_id)%Z) (entries db))
      by now destruct (List.filter _ (entries db)).
    rewrite Hrows. now destruct (List.filter _ (entries db)).
  - intros other Hother. rewrite List.filter_app. cbn [List.filter e_user_id].
    apply not_eq_sym, Z.eqb_neq in Hother. rewrite Hother. now rewrite app_nil_r.
Qed.

Lemma register_user_result (db db' : DB) (username password : string) (r : bool * string) :
  register_user db username password = Ok (db', r) ->
  db' = db
  \/ db' = mkDB (users db ++ [mkUser (next_id (map u_id (users db))) username
                                     (hash_password password)])
                (entries db) (budgets db).
Proof.
  rewrite register_user_cases.
  destruct (PyStr.truthy _); [intros [= <- _]; now left|].
  destruct (username_exists _ _); intros [= <- _]; [now left|now right].
Qed.

Lemma budget_ids_update (f : Budget -> bool) (amount : float) (bs : list Budget) :
  map b_id (map (fun b => if f b then update_amount amount b else b) bs) = map b_id bs.
Proof. rewrite map_map. apply map_ext. intros b. now destruct (f b). Qed.

Section Keys.
Variable db : DB.
Hypothesis Hkeys : primary_keys_unique db.

Lemma register_user_keys (username password : string) (db' : DB) (r : bool * string) :
  register_user db username password = Ok (db', r) -> primary_keys_unique db'.
Proof.
  intros [->| ->]%register_user_result; [exact Hkeys|].
  destruct Hkeys as (Husers & Hentries & Hbudgets).
  repeat split; cbn [users entries budgets]; try assumption.
  rewrite map_app. apply NoDup_snoc; [assumption|apply next_id_not_in].
Qed.

Lemma add_entry_keys (user_id : Z) (etype category : string) (amount : float) (date : Date) :
  primary_keys_unique (add_entry db user_id etype category amount date).
Proof.
  destruct Hkeys as (Husers & Hentries & Hbudgets).
  repeat split; cbn [users entries budgets add_entry]; try assumption.
  rewrite map_app. apply NoDup_snoc; [assumption|apply next_id_not_in].
Qed.

Lemma set_budget_keys_unique (user_id : Z) (category : string) (amount : float)
    (month year : Z) :
  primary_keys_unique (set_budget db user_id category amount month year).
Proof.
  destruct Hkeys as (Husers & Hentries & Hbudgets).
  unfold set_budget. destruct (existsb _ _);
    repeat split; cbn [users entries budgets]; try assumption.
  - now rewrite budget_ids_update.
  - rewrite map_app. apply NoDup_snoc; [assumption|apply next_id_not_in].
Qed.

End Keys.

(** The ids stay distinct in the three tables under each of the three
    operations that write to the store. *)
Theorem primary_keys_preserved (db : DB) :
  primary_keys_unique db ->
  (forall username password db' r,
      register_user db username password = Ok (db', r) -> primary_keys_unique db')
  /\ (forall user_id etype category amount date,
        primary_keys_unique (add_entry db user_id etype category amount date))
  /\ (forall user_id category amount month year,
        primary_keys_unique (set_budget db user_id category amount month year)).
Proof.
  intros Hkeys. split; [|split].
  - intros username password db' r. now apply register_user_keys.
  - now apply add_entry_keys.
  - now apply set_budget_keys_unique.
Qed.

Lemma primary_keys_preserved_witness :
  primary_keys_unique (add_entry scenario_db 1 "expense" "Bills" 80 (mkDate 2024 6 9)).
Proof.
  refine (proj1 (proj2 (primary_keys_preserved scenario_db _)) 1 "expense" "Bills"
            80%float (mkDate 2024 6 9)).
  unfold primary_keys_unique. cbn.
  repeat split; repeat constructor; cbn; intuition discriminate.
Defined.

(** * Further properties of the notification engine *)

Lemma has_entries_add_entry (db : DB) (uid user_id : Z) (etype category : string)
    (amount : float) (date : Date) :
  has_entries (add_entry db user_id etype category amount date) uid
  = has_entries db uid || (user_id =? uid)%Z.
Proof.
  unfold has_entries, add_entry. cbn [entries]. rewrite existsb_app. cbn.
  now rewrite orb_false_r.
Qed.

Lemma spent_of_add_entry_other (db : DB) (uid year month user_id : Z)
    (etype category : string) (amount : float) (date : Date) :
  counts_for uid year month user_id etype date = false ->
  spent_of (add_entry db user_id etype category amount date) uid year month
  = spent_of db uid year month.
Proof.
  unfold spent_of, add_entry, counts_for. cbn [entries].
  rewrite List.filter_app. cbn [List.filter e_user_id].
  destruct (user_id =? uid)%Z; cbn [andb]; [|now rewrite app_nil_r].
  rewrite List.filter_app. cbn [List.filter e_type e_date].
  intros ->. now rewrite app_nil_r.
Qed.

Lemma matching_expenses_add_entry (db : DB) (uid year month day : Z)
    (category other : string) (amount : float) :
  matching_expenses (add_entry db uid "expense" category amount (mkDate year month day))
                    uid year month other
  = (matching_expenses db uid year month other
     ++ if String.eqb category other
        then [mkEntry (next_id (map e_id (entries db))) uid "expense" category amount
                      (mkDate year month day)]
        else [])%list.
Proof.
  unfold matching_expenses, add_entry. cbn [entries].
  rewrite List.filter_app. cbn [List.filter e_user_id e_type e_date e_category d_year d_month].
  rewrite !Z.eqb_refl. cbn [andb String.eqb]. now destruct (String.eqb category other).
Qed.

(** the spend of a category is the compensated sum over the expenses of
    the user of that category in the period *)
Lemma spent_of_lookup (db : DB) (uid year month : Z) (category : string) :
  spent_of db uid year month !! category =
    match matching_expenses db uid year month category with
    | [] => None
    | group => Some (sum_amounts group)
    end.
Proof.
  unfold spent_of, matching_expenses.
  rewrite groupby_sum_lookup, !filter_filter_andb.
  erewrite filter_ext; [reflexivity|].
  intros e. cbn. now rewrite !andb_assoc.
Qed.

Lemma emitted_length (spent : gmap string float) (row : Budget) :
  (length (emitted spent row) <= 1)%nat.
Proof.
  unfold emitted, notify_row, pct_of, py_div.
  destruct (0 <? b_amount row)%float; cbn; [|lia].
  destruct (b_amount row =? 0)%float; cbn; [lia|].
  repeat match goal with
         | |- context [if ?c then _ else _] => destruct c
         end; cbn; lia.
Qed.

Lemma flat_map_emitted_length (spent : gmap string float) (rows : list Budget) :
  (length (flat_map (emitted spent) rows) <= length rows)%nat.
Proof.
  induction rows as [|row rows IH]; cbn; [lia|].
  rewrite length_app. pose proof (emitted_length spent row). lia.
Qed.

(** The outcome of [check_budget_notifications], for every store of
    numbers (no amount is NULL): either a list with at most one message per
    budget row of the period, which happens when the period has no budget
    or the user has an entry; or [AttributeError] and no other exception,
    which happens when the period has a budget and the user has no entry. *)
Theorem check_budget_notifications_outcome (db : DB) (user_id year month : Z) :
  numbers_only db = true ->
  match check_budget_notifications db user_id year month with
  | Ok msgs =>
      (length msgs <= length (get_budgets db user_id year month))%nat
      /\ (get_budgets db user_id year month = [] \/ has_entries db user_id = true)
  | Raise e =>
      e = AttributeError
      /\ get_budgets db user_id year month <> []
      /\ has_entries db user_id = false
  end.
Proof.
  intros _. rewrite check_budget_notifications_cases.
  destruct (get_budgets db user_id year month) as [|row rows] eqn:Hrows.
  - cbn. auto.
  - destruct (has_entries db user_id).
    + split; [apply flat_map_emitted_length|now right].
    + repeat split. discriminate.
Qed.

Lemma check_budget_notifications_outcome_witness :
  get_budgets budget_only_db 1 2024 6 <> [] /\ has_entries budget_only_db 1 = false.
Proof.
  assert (Hraise : check_budget_notifications budget_only_db 1 2024 6 = Raise AttributeError)
    by reflexivity.
  pose proof (check_budget_notifications_outcome budget_only_db 1 2024 6 eq_refl) as H.
  rewrite Hraise in H. exact (proj2 H).
Defined.

(** In a store of numbers, the "Add Entry" button with a number as the
    amount does not fail on its instant check: once the entry is stored the
    user has an entry, so the check returns its alerts, at most one per
    budget row of the current month. *)
Theorem on_add_entry_returns (db : DB) (uid : Z) (etype category : string)
    (amount : float) (date today : Date) :
  numbers_only db = true ->
  is_nan amount = false ->
  exists alerts,
    on_add_entry db uid etype category amount date today
    = (add_entry db uid etype category amount date, Ok alerts)
    /\ (length alerts <= length (get_budgets db uid (d_year today) (d_month today)))%nat.
Proof.
  intros _ _. unfold on_add_entry. rewrite check_budget_notifications_cases.
  rewrite has_entries_add_entry, Z.eqb_refl, orb_true_r.
  change (get_budgets (add_entry db uid etype category amount date))
    with (get_budgets db).
  destruct (get_budgets db uid (d_year today) (d_month today)) as [|row rows] eqn:Hrows.
  - exists []. split; [reflexivity|cbn; lia].
  - eexists. split; [reflexivity|]. apply flat_map_emitted_length.
Qed.

Lemma on_add_entry_returns_witness :
  exists alerts,
    on_add_entry budget_only_db 1 "expense" "Food" 1200 (mkDate 2024 6 3) (mkDate 2024 6 3)
    = (add_entry budget_only_db 1 "expense" "Food" 1200 (mkDate 2024 6 3), Ok alerts)
    /\ (length alerts <= 1)%nat.
Proof.
  apply (on_add_entry_returns budget_only_db 1 "expense" "Food" 1200%float
           (mkDate 2024 6 3) (mkDate 2024 6 3)); reflexivity.
Defined.

(** An entry that is not an expense of the user in the period (an income,
    an entry of another user, of another month or year) leaves the
    notifications of a user who already has entries as they were. *)
Theorem other_entries_do_not_count (db : DB) (uid year month user_id : Z)
    (etype category : string) (amount : float) (date : Date) :
  has_entries db uid = true ->
  counts_for uid year month user_id etype date = false ->
  check_budget_notifications (add_entry db user_id etype category amount date) uid year month
  = check_budget_notifications db uid year month.
Proof.
  intros Hsome Hout. rewrite !check_budget_notifications_cases.
  rewrite has_entries_add_entry, Hsome, (spent_of_add_entry_other _ _ _ _ _ _ _ _ _ Hout).
  reflexivity.
Qed.

Lemma other_entries_do_not_count_witness :
  check_budget_notifications
    (add_entry scenario_db 1 "income" "Food" 900 (mkDate 2024 6 25)) 1 2024 6
  = check_budget_notifications scenario_db 1 2024 6.
Proof.
  apply (other_entries_do_not_count scenario_db 1 2024 6 1 "income" "Food" 900%float
           (mkDate 2024 6 25)); reflexivity.
Defined.

(** An expense of the user in the period joins the expenses of its
    category: in a store of numbers, the spend of the category becomes the
    compensated sum over the earlier expenses of the category followed by
    the new amount, and the spend of every other category stays as it
    was. *)
Theorem expense_adds_to_category (db : DB) (uid year month day : Z)
    (category : string) (amount : float) :
  numbers_only db = true ->
  is_nan amount = false ->
  let db' := add_entry db uid "expense" category amount (mkDate year month day) in
  spent_of db' uid year month !! category
  = Some (kahan_sum (map e_amount (matching_expenses db uid year month category)
                     ++ [amount]))
  /\ forall other, other <> category ->
       spent_of db' uid year month !! other = spent_of db uid year month !! other.
Proof.
  intros _ _. cbv zeta.
  assert (Hcat : spent_of (add_entry db uid "expense" category amount (mkDate year month day))
                          uid year month !! category
                 = Some (kahan_sum (map e_amount (matching_expenses db uid year month category)
                                    ++ [amount]))).
  { rewrite spent_of_lookup, matching_expenses_add_entry, String.eqb_refl.
    destruct (matching_expenses db uid year month category) as [|e es]; cbn [app];
      unfold sum_amounts; cbn [map]; [reflexivity|]. now rewrite map_app. }
  split; [exact Hcat|].
  intros other Hother. rewrite !spent_of_lookup, matching_expenses_add_entry.
  apply not_eq_sym, String.eqb_neq in Hother. rewrite Hother. now rewrite app_nil_r.
Qed.

Lemma expense_adds_to_category_witness :
  spent_of (add_entry scenario_db 1 "expense" "Food" 0.125 (mkDate 2024 6 28)) 1 2024 6
    !! "Food"
  = Some 750.125%float.
Proof.
  destruct (expense_adds_to_category scenario_db 1 2024 6 28 "Food" 0.125%float
              eq_refl eq_refl) as (Hsum & _).
  rewrite Hsum. vm_compute. reflexivity.
Defined.

(** * Further properties of [set_budget] *)

Section LastWrite.
Variables (user_id : Z) (category : string) (month year : Z).

Let matches : Budget -> bool := budget_key_matches user_id category month year.

Lemma matches_after_update (amount : float) (b : Budget) :
  matches (if matches b then update_amount amount b else b) = matches b.
Proof. destruct (matches b) eqn:Hb; exact Hb. Qed.

Lemma existsb_matches_update (amount : float) (bs : list Budget) :
  existsb matches (map (fun b => if matches b then update_amount amount b else b) bs)
  = existsb matches bs.
Proof.
  induction bs as [|b bs IH]; cbn; [reflexivity|].
  now rewrite IH, matches_after_update.
Qed.

Lemma update_twice (amount1 amount2 : float) (b : Budget) :
  (let b1 := if matches b then update_amount amount1 b else b in
   if matches b1 then update_amount amount2 b1 else b1)
  = if matches b then update_amount amount2 b else b.
Proof.
  cbv zeta. destruct (matches b) eqn:Hb; [|now rewrite Hb].
  change (matches (update_amount amount1 b)) with (matches b). now rewrite Hb.
Qed.

Lemma update_none (amount : float) (bs : list Budget) :
  existsb matches bs = false ->
  map (fun b => if matches b then update_amount amount b else b) bs = bs.
Proof.
  induction bs as [|b bs IH]; cbn; [reflexivity|].
  intros [-> Hbs]%orb_false_iff. now rewrite IH.
Qed.

Lemma set_budget_twice (db : DB) (amount1 amount2 : float) :
  set_budget (set_budget db user_id category amount1 month year)
             user_id category amount2 month year
  = set_budget db user_id category amount2 month year.
Proof.
  unfold set_budget. fold matches.
  destruct (existsb matches (budgets db)) eqn:Hex; cbn [budgets users entries].
  - rewrite existsb_matches_update, Hex. f_equal.
    rewrite map_map. apply map_ext. intros b. apply update_twice.
  - rewrite existsb_app. cbn [existsb].
    assert (Hnew : forall amount,
               matches (mkBudget (next_id (map b_id (budgets db)))
                                 user_id category amount month year) = true).
    { intros amount. unfold matches, budget_key_matches. cbn.
      now rewrite !Z.eqb_refl, String.eqb_refl. }
    rewrite Hnew, orb_true_r. f_equal.
    rewrite map_app, (update_none _ _ Hex). cbn [map]. now rewrite Hnew.
Qed.

Lemma filter_others_update (amount : float) (bs : list Budget) :
  List.filter (fun b => negb (matches b))
              (map (fun b => if matches b then update_amount amount b else b) bs)
  = List.filter (fun b => negb (matches b)) bs.
Proof.
  induction bs as [|b bs IH]; [reflexivity|]. cbn [map List.filter].
  rewrite matches_after_update, IH. now destruct (matches b).
Qed.

Lemma set_budget_others (db : DB) (amount : float) :
  let db' := set_budget db user_id category amount month year in
  List.filter (fun b => negb (matches b)) (budgets db')
  = List.filter (fun b => negb (matches b)) (budgets db)
  /\ users db' = users db
  /\ entries db' = entries db
  /\ (length (budgets db) <= length (budgets db') <= S (length (budgets db)))%nat.
Proof.
  cbv zeta. unfold set_budget. fold matches.
  destruct (existsb matches (budgets db)) eqn:Hex; cbn [budgets users entries].
  - repeat split; [|rewrite length_map; lia..].
    apply filter_others_update.
  - repeat split; [|rewrite length_app; cbn; lia..].
    rewrite List.filter_app. cbn [List.filter].
    unfold matches at 2, budget_key_matches. cbn.
    rewrite !Z.eqb_refl, String.eqb_refl. cbn. now rewrite app_nil_r.
Qed.

End LastWrite.

(** Last write wins, as an equality of stores: two [set_budget] calls on
    one key leave the store that the second call alone would leave, the id
    of the row included.  With equal amounts: the call is idempotent. *)
Theorem set_budget_last_write_wins (db : DB) (user_id : Z) (category : string)
    (amount1 amount2 : float) (month year : Z) :
  set_budget (set_budget db user_id category amount1 month year)
             user_id category amount2 month year
  = set_budget db user_id category amount2 month year.
Proof. apply set_budget_twice. Qed.

(** [set_budget] touches one key: the rows of the other keys are the same
    rows in the same order, the users and the entries are as before, and
    the table grows by at most one row. *)
Theorem set_budget_other_keys (db : DB) (user_id : Z) (category : string)
    (amount : float) (month year : Z) :
  let db' := set_budget db user_id category amount month year in
  List.filter (fun b => negb (budget_key_matches user_id category month year b)) (budgets db')
  = List.filter (fun b => negb (budget_key_matches user_id category month year b)) (budgets db)
  /\ users db' = users db
  /\ entries db' = entries db
  /\ (length (budgets db) <= length (budgets db') <= S (length (budgets db)))%nat.
Proof. apply set_budget_others. Qed.

(** * The dashboard *)

Lemma get_budgets_set_budget_nonempty (db : DB) (uid : Z) (category : string)
    (amount : float) (month year : Z) :
  get_budgets (set_budget db uid category amount month year) uid year month <> [].
Proof.
  destruct (set_budget_stores db uid category amount month year) as (row & Hin & _).
  intros Hnil. rewrite Hnil in Hin. exact Hin.
Qed.

Lemma has_entries_set_budget (db : DB) (uid user_id : Z) (category : string)
    (amount : float) (month year : Z) :
  has_entries (set_budget db user_id category amount month year) uid = has_entries db uid.
Proof. unfold has_entries, set_budget. now destruct (existsb _ (budgets db)). Qed.

Section Overview.
Local Open Scope float_scope.

Lemma Prim2SF_one : Prim2SF 1 = S754_finite false 4503599627370496 (-52).
Proof. reflexivity. Qed.

Lemma float_in_unit (x : float) :
  (0 <=? x) = true -> (1 <? x) = false -> (x <=? 1) = true.
Proof. float_spec. rewrite Prim2SF_zero, Prim2SF_one. sf_cases; cmp_cases. Qed.

Lemma py_min_le_1 (x : float) : (1 <? py_min x 1) = false.
Proof.
  unfold py_min. destruct (1 <? x) eqn:Hx; [reflexivity|exact Hx].
Qed.

(** the value that reaches [st.progress] is never too large: what is
    refused comes from a ratio that is not [>= 0] *)
Lemma st_progress_refuses (x : float) :
  st_progress (py_min x 1) <> Ok tt -> (0 <=? x) = false.
Proof.
  unfold py_min. destruct (1 <? x) eqn:H1.
  - intros H. now contradiction H.
  - destruct (0 <=? x) eqn:H0; [|reflexivity].
    intros H. contradiction H. unfold st_progress.
    now rewrite H0, (float_in_unit x H0 H1).
Qed.

Lemma st_progress_cases (x : float) :
  st_progress x = Ok tt \/ st_progress x = Raise StreamlitAPIException.
Proof. unfold st_progress. destruct (_ || _); auto. Qed.

(** one row of the overview: it is shown, with a progress value that
    [st.progress] takes and that is not above 1, or [st.progress] refuses a
    ratio that is not [>= 0] *)
Lemma overview_row_cases (spent : gmap string float) (shown : list (float * string))
    (row : Budget) :
  (exists progress,
      overview_row spent shown row
      = Ok (shown ++ [(progress,
                       overview_label (b_category row) (used_of spent row) (b_amount row))])%list
      /\ st_progress progress = Ok tt
      /\ (1 <? progress) = false)
  \/ (overview_row spent shown row = Raise StreamlitAPIException
      /\ (0 <? b_amount row) = true
      /\ (0 <=? used_of spent row / b_amount row) = false).
Proof.
  unfold overview_row, py_div.
  destruct (0 <? b_amount row) eqn:Hpos.
  - rewrite (float_pos_nonzero _ Hpos). cbn [mbind mret result_bind result_ret].
    destruct (st_progress_cases (py_min (used_of spent row / b_amount row) 1)) as [Hok|Hno].
    + left. eexists. rewrite Hok. split; [reflexivity|]. split; [exact Hok|apply py_min_le_1].
    + right. rewrite Hno. repeat split. apply st_progress_refuses. now rewrite Hno.
  - left. exists 0. repeat split.
Qed.

Lemma for_each_overview_row (spent : gmap string float) (rows : list Budget)
    (shown : list (float * string)) :
  match for_each (overview_row spent) rows shown with
  | Ok out =>
      exists items,
        out = (shown ++ items)%list
        /\ map snd items
           = map (fun row => overview_label (b_category row) (used_of spent row) (b_amount row))
                 rows
        /\ Forall (fun item => st_progress (fst item) = Ok tt /\ (1 <? fst item) = false) items
  | Raise e =>
      e = StreamlitAPIException
      /\ exists row,
           In row rows /\ (0 <? b_amount row) = true
           /\ (0 <=? used_of spent row / b_amount row) = false
  end.
Proof.
  revert shown. induction rows as [|row rows IH]; intros shown; cbn [for_each].
  - exists []. rewrite app_nil_r. repeat split. constructor.
  - destruct (overview_row_cases spent shown row)
      as [(progress & -> & Hok & Hle)|(-> & Hpos & Hneg)];
      cbn [mbind result_bind].
    + specialize (IH (shown ++ [(progress,
                     overview_label (b_category row) (used_of spent row) (b_amount row))])%list).
      destruct (for_each _ rows _) as [out|e].
      * destruct IH as (items & -> & Hlabels & Hall).
        exists ((progress, overview_label (b_category row) (used_of spent row) (b_amount row))
                :: items).
        rewrite <- app_assoc. split; [reflexivity|]. cbn [map snd]. rewrite Hlabels.
        split; [reflexivity|]. constructor; [split; assumption|exact Hall].
      * destruct IH as (-> & row' & Hin & Hrow'). split; [reflexivity|].
        exists row'. split; [now right|exact Hrow'].
    + split; [reflexivity|]. exists row. split; [now left|]. split; assumption.
Qed.

(** without any expense every row is shown, with progress 0 *)
Lemma for_each_overview_row_empty (rows : list Budget) (shown : list (float * string)) :
  exists items, for_each (overview_row ∅) rows shown = Ok (shown ++ items)%list.
Proof.
  revert shown. induction rows as [|row rows IH]; intros shown; cbn [for_each].
  - exists []. now rewrite app_nil_r.
  - assert (Hrow : overview_row ∅ shown row
                   = Ok (shown ++ [(0, overview_label (b_category row) 0 (b_amount row))])%list).
    { unfold overview_row, py_div, used_of. rewrite lookup_empty. cbn [default].
      destruct (0 <? b_amount row) eqn:Hpos; [|reflexivity].
      rewrite (float_pos_nonzero _ Hpos). cbn [mbind mret result_bind result_ret].
      rewrite (float_zero_div _ Hpos). reflexivity. }
    rewrite Hrow. cbn [mbind result_bind].
    destruct (IH (shown ++ [(0, overview_label (b_category row) 0 (b_amount row))])%list)
      as (items & ->).
    eexists (_ :: items). now rewrite <- app_assoc.
Qed.

(** The budget overview of a store of numbers: either it shows one line
    per budget row of the month, in the order of the table, with the label
    of the row and a progress value that [st.progress] takes and that is
    not above 1; or [st.progress] raises, and then for a row with a
    positive amount whose ratio [used / amount] is not [>= 0].  No other
    exception occurs, with or without entries. *)
Theorem budget_overview_outcome (db : DB) (uid : Z) (today : Date) :
  numbers_only db = true ->
  match budget_overview db uid today with
  | Ok items =>
      map snd items
      = map (fun row => overview_label (b_category row)
                          (used_of (overview_spent (get_entries_df db uid)) row)
                          (b_amount row))
            (get_budgets db uid (d_year today) (d_month today))
      /\ Forall (fun item => st_progress (fst item) = Ok tt /\ (1 <? fst item) = false) items
  | Raise e =>
      e = StreamlitAPIException
      /\ exists row,
           In row (get_budgets db uid (d_year today) (d_month today))
           /\ (0 <? b_amount row) = true
           /\ (0 <=? used_of (overview_spent (get_entries_df db uid)) row / b_amount row)
              = false
  end.
Proof.
  intros _. unfold budget_overview.
  destruct (get_budgets db uid (d_year today) (d_month today)) as [|row rows] eqn:Hrows.
  - split; [reflexivity|constructor].
  - pose proof (for_each_overview_row (overview_spent (get_entries_df db uid))
                  (row :: rows) []) as Hfor.
    destruct (for_each _ (row :: rows) []) as [out|e]; [|exact Hfor].
    destruct Hfor as (items & -> & Hrest). exact Hrest.
Qed.

Lemma budget_overview_outcome_witness :
  exists row,
    In row (get_budgets (add_entry scenario_db 1 "expense" "Food" (-5000) (mkDate 2024 6 30))
                        1 2024 6)
    /\ (0 <? b_amount row) = true.
Proof.
  pose proof (budget_overview_outcome
                (add_entry scenario_db 1 "expense" "Food" (-5000)%float (mkDate 2024 6 30))
                1 (mkDate 2024 6 30) eq_refl) as H.
  vm_compute in H. destruct H as (_ & row & Hin & Hpos & _).
  exists row. split; [exact Hin|exact Hpos].
Defined.

End Overview.

Lemma filter_map_dates (f : Entry -> Date) (p : Entry -> bool) (es : list Entry) :
  (forall e, p (mkEntry (e_id e) (e_user_id e) (e_type e) (e_category e) (e_amount e) (f e))
             = p e) ->
  List.filter p (map (fun e => mkEntry (e_id e) (e_user_id e) (e_type e) (e_category e)
                                       (e_amount e) (f e)) es)
  = map (fun e => mkEntry (e_id e) (e_user_id e) (e_type e) (e_category e)
                          (e_amount e) (f e)) (List.filter p es).
Proof.
  intros Hp. induction es as [|e es IH]; [reflexivity|]. cbn [map List.filter].
  rewrite Hp, IH. now destruct (p e).
Qed.

Lemma groupby_sum_map_dates (f : Entry -> Date) (es : list Entry) :
  groupby_sum (map (fun e => mkEntry (e_id e) (e_user_id e) (e_type e) (e_category e)
                                     (e_amount e) (f e)) es)
  = groupby_sum es.
Proof.
  unfold groupby_sum. f_equal.
  induction es as [|e es IH] using rev_ind; [reflexivity|].
  rewrite map_app. cbn [map]. rewrite !groupby_state_snoc, IH. reflexivity.
Qed.

(** The budget overview does not read the dates: it adds up the expenses
    of the user of all months and years, so it is the same whatever the
    dates of the entries are (the notifications count the current month
    only). *)
Theorem budget_overview_ignores_dates (f : Entry -> Date) (db : DB) (uid : Z) (today : Date) :
  budget_overview (with_dates f db) uid today = budget_overview db uid today.
Proof.
  unfold budget_overview, with_dates, get_budgets. cbn [budgets].
  destruct (List.filter _ (budgets db)) as [|row rows]; [reflexivity|].
  f_equal. unfold overview_spent, get_entries_df. cbn [entries].
  rewrite (filter_map_dates f (fun e => (e_user_id e =? uid)%Z)) by reflexivity.
  assert (Hrows : forall es : list Entry,
             f_rows (match es with [] => mkFrame es ObjectDtype | _ :: _ => mkFrame es Datetime64 end)
             = es) by (intros []; reflexivity).
  rewrite !Hrows.
  rewrite (filter_map_dates f (fun e => String.eqb (e_type e) "expense")) by reflexivity.
  destruct (List.filter (fun e => String.eqb (e_type e) "expense")
              (List.filter (fun e => (e_user_id e =? uid)%Z) (entries db))) as [|e es] eqn:Hes;
    [reflexivity|].
  rewrite <- (groupby_sum_map_dates f (e :: es)). reflexivity.
Qed.

(** Setting a budget as a user without entries: from then on the
    notifications of that month raise [AttributeError], while the budget
    overview of the same store returns. *)
Theorem first_budget_without_entries (db : DB) (uid : Z) (b_category : string)
    (b_amount : float) (today : Date) :
  has_entries db uid = false ->
  let db' := on_set_budget db uid b_category b_amount today in
  check_budget_notifications db' uid (d_year today) (d_month today) = Raise AttributeError
  /\ exists items, budget_overview db' uid today = Ok items.
Proof.
  intros Hnone. cbv zeta. unfold on_set_budget. split.
  - rewrite check_budget_notifications_cases, has_entries_set_budget, Hnone.
    pose proof (get_budgets_set_budget_nonempty db uid b_category b_amount
                  (d_month today) (d_year today)) as Hne.
    now destruct (get_budgets _ uid (d_year today) (d_month today)).
  - unfold budget_overview.
    destruct (get_budgets _ uid (d_year today) (d_month today)) as [|row rows];
      [now exists []|].
    assert (Hspent : overview_spent
                       (get_entries_df
                          (set_budget db uid b_category b_amount (d_month today) (d_year today))
                          uid) = ∅).
    { unfold overview_spent, get_entries_df.
      assert (Hrows : List.filter (fun e => (e_user_id e =? uid)%Z)
                        (entries (set_budget db uid b_category b_amount
                                    (d_month today) (d_year today))) = []).
      { apply filter_nil_existsb. rewrite <- Hnone.
        apply (has_entries_set_budget db uid uid b_category b_amount
                 (d_month today) (d_year today)). }
      now rewrite Hrows. }
    rewrite Hspent. apply (for_each_overview_row_empty (row :: rows) []).
Qed.

Lemma first_budget_without_entries_witness :
  check_budget_notifications (on_set_budget spend_only_db 2 "Bills" 300 (mkDate 2024 6 12))
    2 2024 6 = Raise AttributeError
  /\ exists items,
       budget_overview (on_set_budget spend_only_db 2 "Bills" 300 (mkDate 2024 6 12))
         2 (mkDate 2024 6 12) = Ok items.
Proof.
  apply (first_budget_without_entries spend_only_db 2 "Bills" 300%float (mkDate 2024 6 12)).
  reflexivity.
Defined.
